(** * FSSPOS: the point-of-sale screen and its barcode scanner

  A shallow embedding of [src/components/POS.tsx] (catalog filtering,
  category derivation, barcode lookup, scan handling) and of the
  [BarcodeScanner] component (camera / manual capture, session release),
  together with the cart operations of the cart context. *)

From Stdlib Require Import List String Ascii ZArith QArith Bool Arith Lia Sorted.
Import ListNotations.
Local Open Scope list_scope.
Local Open Scope string_scope.

(** ** JavaScript string operations used by the components

  A string is a sequence of UTF-16 code units; the strings of this
  development are those whose code units are below 256 (Basic Latin and
  Latin-1 Supplement), one [ascii] per code unit.  On these strings
  [String.prototype.toLowerCase] works code unit by code unit: it maps
  A-Z to a-z and the capital letters U+00C0-U+00DE, without the
  multiplication sign U+00D7, to the letters 32 places further; and
  [String.prototype.trim] strips the code units 9-13, 32 and 160.  Strings
  with other code units are outside this type. *)
Module JsString.

(** The code units that [toLowerCase] changes. *)
Definition isUpperCase (c : ascii) : bool :=
  let n := nat_of_ascii c in
  ((65 <=? n)%nat && (n <=? 90)%nat)
  || ((192 <=? n)%nat && (n <=? 222)%nat && negb (n =? 215)%nat).

Definition lowerChar (c : ascii) : ascii :=
  if isUpperCase c then ascii_of_nat (nat_of_ascii c + 32) else c.

Fixpoint toLowerCase (s : string) : string :=
  match s with
  | EmptyString => EmptyString
  | String c s' => String (lowerChar c) (toLowerCase s')
  end.

(** [startsWith s t]: [t] occurs in [s] at position 0. *)
Fixpoint startsWith (s t : string) {struct t} : bool :=
  match t with
  | EmptyString => true
  | String c t' =>
      match s with
      | EmptyString => false
      | String d s' => Ascii.eqb d c && startsWith s' t'
      end
  end.

(** [s.includes(t)]: some position [k] of [s] (from 0 up to its length)
    has [t] starting at [k]. *)
Fixpoint includes (s t : string) : bool :=
  startsWith s t ||
  match s with
  | EmptyString => false
  | String _ s' => includes s' t
  end.

Definition isWhiteSpace (c : ascii) : bool :=
  let n := nat_of_ascii c in
  (n =? 32)%nat || ((9 <=? n)%nat && (n <=? 13)%nat) || (n =? 160)%nat.

Fixpoint trimStart (s : string) : string :=
  match s with
  | EmptyString => EmptyString
  | String c s' => if isWhiteSpace c then trimStart s' else s
  end.

(** [trimEnd] drops the trailing white space: a character is kept when
    it is not white space or something is kept after it. *)
Fixpoint trimEnd (s : string) : string :=
  match s with
  | EmptyString => EmptyString
  | String c s' =>
      match trimEnd s' with
      | EmptyString => if isWhiteSpace c then EmptyString else String c EmptyString
      | r => String c r
      end
  end.

Definition trim (s : string) : string := trimEnd (trimStart s).

(** Truthiness of a string in a condition: the empty string is falsy. *)
Definition truthy (s : string) : bool :=
  match s with EmptyString => false | _ => true end.

(** *** Containment up to letter case, said without [toLowerCase] *)

(** [u] is a capital letter and [l] is its small form: A-Z with a-z, and
    the capitals U+00C0-U+00DE (not the sign U+00D7) with U+00E0-U+00FE. *)
Definition letterPair (u l : ascii) : bool :=
  let a := nat_of_ascii u in
  let b := nat_of_ascii l in
  (b =? a + 32)%nat
  && (((65 <=? a)%nat && (a <=? 90)%nat)
      || ((192 <=? a)%nat && (a <=? 222)%nat && negb (a =? 215)%nat)).

(** The same code unit, or the two forms of one letter. *)
Definition sameLetter (c d : ascii) : bool :=
  Ascii.eqb c d || letterPair c d || letterPair d c.

(** Two strings of the same length with the same letter at every place. *)
Fixpoint equalIgnoringCase (s t : string) : bool :=
  match s, t with
  | EmptyString, EmptyString => true
  | String c s', String d t' => sameLetter c d && equalIgnoringCase s' t'
  | _, _ => false
  end.

(** [s] contains [t] up to letter case: some substring of [s] is [t] up
    to the case of its letters. *)
Definition containsIgnoringCase (s t : string) : Prop :=
  exists pre mid post, s = pre ++ mid ++ post /\ equalIgnoringCase mid t = true.

(** Every code unit of the type. *)
Definition allCodeUnits : list ascii := map ascii_of_nat (seq 0 256).

(** The capital E with acute accent (U+00C9), its small form (U+00E9)
    and the no-break space (U+00A0). *)
Definition capitalEacute : string := String "201"%char EmptyString.

Definition smallEacute : string := String "233"%char EmptyString.

Definition noBreakSpace : string := String "160"%char EmptyString.

End JsString.

(** ** The catalog side of the POS screen: [src/components/POS.tsx] *)
Module Catalog.
Import JsString.

(** Modelled from the spec: the [Product] type of [../types], which the
    screen imports and which is not among the sources; the fields are
    those of the data model (identity, name, free-text category, price,
    stock count, optional barcode, optional image). *)
Record Product := {
  id : string;
  name : string;
  category : string;
  price : Q;
  stock : Z;
  barcode : option string;
  image_url : option string
}.

(** *** [new Set(iterable)] and [Array.from(set)]

    A [Set] keeps its elements in insertion order; [add] of an element
    already present changes nothing. *)
Definition Set_add (s : list string) (x : string) : list string :=
  if existsb (String.eqb x) s then s else (s ++ [x])%list.

Definition Set_from (l : list string) : list string := fold_left Set_add l [].

(** [const categories = ['all', ...Array.from(new Set(products.map(p => p.category)))]] *)
Definition categories (products : list Product) : list string :=
  "all" :: Set_from (map category products).

(** The callback of [products.filter(...)]. *)
Definition matchesFilter (searchTerm selectedCategory : string) (product : Product) : bool :=
  let matchesSearch := includes (toLowerCase (name product)) (toLowerCase searchTerm) in
  let matchesCategory :=
    String.eqb selectedCategory "all" || String.eqb (category product) selectedCategory in
  matchesSearch && matchesCategory.

Definition filteredProducts (products : list Product) (searchTerm selectedCategory : string)
  : list Product :=
  filter (matchesFilter searchTerm selectedCategory) products.

(** [Array.prototype.find]: the first element the callback accepts, or
    [undefined]. *)
Fixpoint Array_find {A} (f : A -> bool) (l : list A) : option A :=
  match l with
  | [] => None
  | x :: l' => if f x then Some x else Array_find f l'
  end.

(** [p.barcode === barcode], where [p.barcode] may be [undefined]. *)
Definition barcodeIs (code : string) (p : Product) : bool :=
  match barcode p with
  | Some b => String.eqb b code
  | None => false
  end.

(** [products.find(p => p.barcode === barcode)] *)
Definition findByBarcode (products : list Product) (code : string) : option Product :=
  Array_find (barcodeIs code) products.

(** *** Specification-side notions *)


(** What the filter contract asks of a product. *)
Definition Wanted (searchTerm selectedCategory : string) (p : Product) : Prop :=
  containsIgnoringCase (name p) searchTerm /\
  (selectedCategory = "all" \/ category p = selectedCategory).

(** Position of the first occurrence of [x] in [l] ([length l] when absent). *)
Fixpoint firstIndex (x : string) (l : list string) : nat :=
  match l with
  | [] => 0
  | y :: l' => if String.eqb y x then 0 else S (firstIndex x l')
  end.

(** The labels of [l] without repetition, each at its first occurrence. *)
Fixpoint firstSeen (l : list string) : list string :=
  match l with
  | [] => []
  | x :: l' => x :: filter (fun y => negb (String.eqb y x)) (firstSeen l')
  end.

Definition colaProduct : Product :=
  {| id := "1"; name := "Cola"; category := "drinks"; price := 3 # 2; stock := 10;
     barcode := Some "111"; image_url := None |}.

Definition chipsProduct : Product :=
  {| id := "2"; name := "Chips"; category := "snacks"; price := 2 # 1; stock := 5;
     barcode := None; image_url := None |}.

(** A second product carrying the barcode of [colaProduct]. *)
Definition cloneProduct : Product :=
  {| id := "3"; name := "Cola Zero"; category := "drinks"; price := 3 # 2; stock := 4;
     barcode := Some "111"; image_url := None |}.

(** A product filed under the label that the screen uses as sentinel. *)
Definition miscProduct : Product :=
  {| id := "4"; name := "Bag"; category := "all"; price := 1 # 10; stock := 100;
     barcode := None; image_url := None |}.


End Catalog.

(** ** The cart *)
Module Cart.
Import Catalog.

(** Modelled from the spec: the cart context ([../contexts/CartContext],
    imported by the screen through [useCart] and not among the sources).
    A line holds a product and an integer quantity; the cart is the
    ordered collection of its lines, in insertion order. *)
Record CartLine := {
  product : Product;
  quantity : Z
}.

Definition lineFor (productId : string) (l : CartLine) : bool :=
  String.eqb (id (product l)) productId.

Definition withQuantity (q : Z) (l : CartLine) : CartLine :=
  {| product := product l; quantity := q |}.

(** Modelled from the spec: [addItem(product)] of the cart context: "if a
    line for product.id exists, increment its quantity by 1; otherwise
    append a new line with quantity 1". *)
Definition addItem (p : Product) (items : list CartLine) : list CartLine :=
  if existsb (lineFor (id p)) items
  then map (fun l => if lineFor (id p) l then withQuantity (quantity l + 1) l else l) items
  else (items ++ [{| product := p; quantity := 1 |}])%list.

(** Modelled from the spec: [removeItem(productId)] of the cart context:
    "deletes the line if present; no-op otherwise". *)
Definition removeItem (productId : string) (items : list CartLine) : list CartLine :=
  filter (fun l => negb (lineFor productId l)) items.

(** Modelled from the spec: [updateQuantity(productId, newQuantity)] of the
    cart context: "sets the line's quantity to newQuantity; if
    newQuantity <= 0, removes the line. Unknown productId is a no-op". *)
Definition updateQuantity (productId : string) (newQuantity : Z) (items : list CartLine)
  : list CartLine :=
  if (newQuantity <=? 0)%Z then removeItem productId items
  else map (fun l => if lineFor productId l then withQuantity newQuantity l else l) items.

(** Modelled from the spec: [clear()] of the cart context: "empties all lines". *)
Definition clearCart (items : list CartLine) : list CartLine := [].

(** Modelled from the spec: the derived [total] of the cart context, the
    sum over the lines of price times quantity. *)
Definition total (items : list CartLine) : Q :=
  fold_left (fun acc l => (acc + price (product l) * inject_Z (quantity l))%Q) items 0%Q.

(** The lines of a cart that belong to one product. *)
Definition linesFor (productId : string) (items : list CartLine) : list CartLine :=
  filter (lineFor productId) items.

(** At most one line per product id. *)
Definition OneLinePerProduct (items : list CartLine) : Prop :=
  NoDup (map (fun l => id (product l)) items).

End Cart.

(** ** The POS screen: what a scanned barcode does *)
Module Screen.
Import JsString Catalog Cart.

(** A [div] created by the screen for a notice; [node] is its identity. *)
Record Notification := {
  node : nat;
  className : string;
  textContent : string
}.

(** A pending [setTimeout(() => document.body.removeChild(n), delay)]. *)
Record Timeout := {
  delay : Z;
  removes : nat
}.

(** The state the screen works on: its own [useState] cells, the lines of
    the cart context, the children it appended to [document.body] and the
    timers it armed. *)
Record Screen := {
  products : list Product;
  items : list CartLine;
  showBarcodeScanner : bool;
  body : list Notification;
  timeouts : list Timeout;
  nextNode : nat
}.

Definition successClass : string :=
  "fixed top-4 right-4 bg-green-600 text-white px-4 py-2 rounded-lg shadow-lg z-50".

Definition failureClass : string :=
  "fixed top-4 right-4 bg-red-600 text-white px-4 py-2 rounded-lg shadow-lg z-50".

Definition setShowBarcodeScanner (b : bool) (s : Screen) : Screen :=
  {| products := products s; items := items s; showBarcodeScanner := b;
     body := body s; timeouts := timeouts s; nextNode := nextNode s |}.

Definition setItems (f : list CartLine -> list CartLine) (s : Screen) : Screen :=
  {| products := products s; items := f (items s); showBarcodeScanner := showBarcodeScanner s;
     body := body s; timeouts := timeouts s; nextNode := nextNode s |}.

(** [createElement], [appendChild] and [setTimeout(..., ms)] of one notice. *)
Definition notify (cls text : string) (ms : Z) (s : Screen) : Screen :=
  let n := nextNode s in
  {| products := products s; items := items s; showBarcodeScanner := showBarcodeScanner s;
     body := (body s ++ [{| node := n; className := cls; textContent := text |}])%list;
     timeouts := (timeouts s ++ [{| delay := ms; removes := n |}])%list;
     nextNode := S n |}.

Definition handleBarcodeScanned (barcode : string) (s : Screen) : Screen :=
  match findByBarcode (products s) barcode with
  | Some product =>
      let s := setItems (addItem product) s in
      let s := setShowBarcodeScanner false s in
      notify successClass ("Added " ++ name product ++ " to cart") 3000 s
  | None =>
      let s := notify failureClass ("Product not found for barcode: " ++ barcode) 3000 s in
      setShowBarcodeScanner false s
  end.

Definition handleCheckoutComplete (s : Screen) : Screen :=
  setItems clearCart s.

(** The callback of a timer: [document.body.removeChild(notification)]. *)
Definition removeChild (n : nat) (s : Screen) : Screen :=
  {| products := products s; items := items s; showBarcodeScanner := showBarcodeScanner s;
     body := filter (fun x => negb (Nat.eqb (node x) n)) (body s);
     timeouts := timeouts s; nextNode := nextNode s |}.

Fixpoint dropNth {A} (k : nat) (l : list A) : list A :=
  match l, k with
  | [], _ => []
  | _ :: l', O => l'
  | x :: l', S k' => x :: dropNth k' l'
  end.

(** The [k]-th pending timer expires: it leaves the pending timers and its
    callback runs. *)
Definition fireTimeout (k : nat) (s : Screen) : option Screen :=
  match nth_error (timeouts s) k with
  | Some t =>
      Some (removeChild (removes t)
        {| products := products s; items := items s;
           showBarcodeScanner := showBarcodeScanner s; body := body s;
           timeouts := dropNth k (timeouts s); nextNode := nextNode s |})
  | None => None
  end.

Definition emptyScreen (catalog : list Product) : Screen :=
  {| products := catalog; items := []; showBarcodeScanner := false;
     body := []; timeouts := []; nextNode := 0 |}.

End Screen.

(** ** The barcode scanner component

    The component is a function of its props and [useState] cells that
    React calls at every render; the functions it defines ([cleanup],
    [initializeScanner], ...) see the cells of the render that created
    them.  The two refs and the capture objects of the decoding library
    are shared between renders.  The model keeps these apart: the cells,
    the refs, the capture objects, the suspended [async] calls, and the
    values seen by the effect that is currently installed. *)
Module Scanner.
Import JsString Catalog Cart Screen.

(** ['camera' | 'input'] *)
Inductive Mode := camera | input.

Definition Mode_eqb (a b : Mode) : bool :=
  match a, b with
  | camera, camera | input, input => true
  | _, _ => false
  end.

(** An entry of [Html5Qrcode.getCameras()]. *)
Record CameraDevice := {
  deviceId : string;
  label : string
}.

(** The capture device boundary: what the component asks of a capture
    object, and whether its decode loop is running. *)
Inductive Call :=
| CallStart (cameraId : string)
| CallStop
| CallClear.

Record Html5Qrcode := {
  calls : list Call;
  scanning : bool
}.

(** An [async] call suspended at an [await]:
    [initializeScanner] at [getCameras()] (with the [selectedCamera] of its
    render) or at [start(...)], [cleanup] at [stop()]. *)
Inductive Task :=
| AwaitGetCameras (selected : string)
| AwaitStart (h : nat)
| AwaitStop (h : nat).

(** The [useState] cells of the component. *)
Record State := {
  scannerMode : Mode;
  manualBarcode : string;
  isScanning : bool;
  error : string;
  cameras : list CameraDevice;
  selectedCamera : string
}.

(** The effect installed by the last render whose dependencies
    [[isOpen, scannerMode, selectedCamera]] had changed, with the
    [isScanning] that its [cleanup] sees. *)
Record Effect := {
  depIsOpen : bool;
  depMode : Mode;
  depCamera : string;
  seenScanning : bool
}.

Record World := {
  host : Screen;
  st : State;
  scannerRef : option nat;
  html5QrCodeRef : option nat;
  mounted : bool;
  effect : Effect;
  instances : list Html5Qrcode;
  tasks : list Task;
  console : list string
}.

(** The [isOpen] prop is the [showBarcodeScanner] cell of the screen. *)
Definition isOpen (w : World) : bool := showBarcodeScanner (host w).

(** *** State setters and the capture boundary *)

Definition onState (f : State -> State) (w : World) : World :=
  {| host := host w; st := f (st w); scannerRef := scannerRef w;
     html5QrCodeRef := html5QrCodeRef w; mounted := mounted w; effect := effect w;
     instances := instances w; tasks := tasks w; console := console w |}.

Definition onHost (f : Screen -> Screen) (w : World) : World :=
  {| host := f (host w); st := st w; scannerRef := scannerRef w;
     html5QrCodeRef := html5QrCodeRef w; mounted := mounted w; effect := effect w;
     instances := instances w; tasks := tasks w; console := console w |}.

Definition setScannerMode (m : Mode) : World -> World :=
  onState (fun s => {| scannerMode := m; manualBarcode := manualBarcode s;
                       isScanning := isScanning s; error := error s;
                       cameras := cameras s; selectedCamera := selectedCamera s |}).

Definition setManualBarcode (v : string) : World -> World :=
  onState (fun s => {| scannerMode := scannerMode s; manualBarcode := v;
                       isScanning := isScanning s; error := error s;
                       cameras := cameras s; selectedCamera := selectedCamera s |}).

Definition setIsScanning (b : bool) : World -> World :=
  onState (fun s => {| scannerMode := scannerMode s; manualBarcode := manualBarcode s;
                       isScanning := b; error := error s;
                       cameras := cameras s; selectedCamera := selectedCamera s |}).

Definition setError (e : string) : World -> World :=
  onState (fun s => {| scannerMode := scannerMode s; manualBarcode := manualBarcode s;
                       isScanning := isScanning s; error := e;
                       cameras := cameras s; selectedCamera := selectedCamera s |}).

Definition setCameras (l : list CameraDevice) : World -> World :=
  onState (fun s => {| scannerMode := scannerMode s; manualBarcode := manualBarcode s;
                       isScanning := isScanning s; error := error s;
                       cameras := l; selectedCamera := selectedCamera s |}).

Definition setSelectedCamera (c : string) : World -> World :=
  onState (fun s => {| scannerMode := scannerMode s; manualBarcode := manualBarcode s;
                       isScanning := isScanning s; error := error s;
                       cameras := cameras s; selectedCamera := c |}).

Definition setRefs (sr hr : option nat) (w : World) : World :=
  {| host := host w; st := st w; scannerRef := sr; html5QrCodeRef := hr;
     mounted := mounted w; effect := effect w;
     instances := instances w; tasks := tasks w; console := console w |}.

Definition setMounted (b : bool) (w : World) : World :=
  {| host := host w; st := st w; scannerRef := scannerRef w;
     html5QrCodeRef := html5QrCodeRef w; mounted := b; effect := effect w;
     instances := instances w; tasks := tasks w; console := console w |}.

Definition setEffect (e : Effect) (w : World) : World :=
  {| host := host w; st := st w; scannerRef := scannerRef w;
     html5QrCodeRef := html5QrCodeRef w; mounted := mounted w; effect := e;
     instances := instances w; tasks := tasks w; console := console w |}.

Definition setInstances (l : list Html5Qrcode) (w : World) : World :=
  {| host := host w; st := st w; scannerRef := scannerRef w;
     html5QrCodeRef := html5QrCodeRef w; mounted := mounted w; effect := effect w;
     instances := l; tasks := tasks w; console := console w |}.

Definition setTasks (l : list Task) (w : World) : World :=
  {| host := host w; st := st w; scannerRef := scannerRef w;
     html5QrCodeRef := html5QrCodeRef w; mounted := mounted w; effect := effect w;
     instances := instances w; tasks := l; console := console w |}.

(** [console.warn] and [console.error] *)
Definition logLine (msg : string) (w : World) : World :=
  {| host := host w; st := st w; scannerRef := scannerRef w;
     html5QrCodeRef := html5QrCodeRef w; mounted := mounted w; effect := effect w;
     instances := instances w; tasks := tasks w; console := (console w ++ [msg])%list |}.

Definition suspend (t : Task) (w : World) : World :=
  setTasks (tasks w ++ [t])%list w.

Fixpoint updateNth {A} (k : nat) (f : A -> A) (l : list A) : list A :=
  match l, k with
  | [], _ => []
  | x :: l', O => f x :: l'
  | x :: l', S k' => x :: updateNth k' f l'
  end.

(** A method call on the capture object [h]; [stop()] ends its decode loop. *)
Definition invoke (h : nat) (c : Call) (w : World) : World :=
  setInstances
    (updateNth h (fun i => {| calls := (calls i ++ [c])%list;
                              scanning := match c with CallStop => false | _ => scanning i end |})
       (instances w)) w.

Definition setScanning (h : nat) (b : bool) (w : World) : World :=
  setInstances (updateNth h (fun i => {| calls := calls i; scanning := b |}) (instances w)) w.

(** [new Html5Qrcode("barcode-scanner")] *)
Definition newHtml5Qrcode (w : World) : nat * World :=
  (List.length (instances w),
   setInstances (instances w ++ [{| calls := []; scanning := false |}])%list w).

Definition noCamerasMessage : string := "No cameras found. Please use manual input.".

Definition initFailedMessage : string :=
  "Failed to initialize camera. Please check permissions or use manual input.".

(** *** [initializeScanner] *)

(** Up to [await Html5Qrcode.getCameras()]. *)
Definition initializeScanner (selected : string) (w : World) : World :=
  suspend (AwaitGetCameras selected) (setError "" w).

(** From the resolution of [getCameras()] up to [await html5QrCode.start(...)]. *)
Definition initializeScanner_cameras (selected : string) (devices : list CameraDevice)
  (w : World) : World :=
  let w := setCameras devices w in
  match devices with
  | [] => setScannerMode input (setError noCamerasMessage w)
  | d0 :: _ =>
      let cameraId := if truthy selected then selected else deviceId d0 in
      let (h, w) := newHtml5Qrcode w in
      let w := setRefs (scannerRef w) (Some h) w in
      suspend (AwaitStart h) (invoke h (CallStart cameraId) w)
  end.

(** After [start(...)] resolved. *)
Definition initializeScanner_started (h : nat) (w : World) : World :=
  setIsScanning true (setScanning h true w).

(** The [catch] block, for a rejected [getCameras()] or [start(...)]. *)
Definition initializeScanner_catch (w : World) : World :=
  setScannerMode input (setError initFailedMessage (logLine "Scanner initialization error:" w)).

(** *** [cleanup] *)

(** What follows the [try] statement. *)
Definition cleanup_finish (w : World) : World :=
  setRefs None None (setIsScanning false w).

(** [if (scannerRef.current) scannerRef.current.clear()], then the rest. *)
Definition cleanup_tail (w : World) : World :=
  cleanup_finish
    match scannerRef w with
    | Some r => invoke r CallClear w
    | None => w
    end.

Definition cleanup_catch (w : World) : World :=
  cleanup_finish (logLine "Cleanup error:" w).

(** [cleanup], run by code that sees [isScanning = seen], up to
    [await html5QrCodeRef.current.stop()] when it gets there and to its end
    otherwise. *)
Definition cleanup (seen : bool) (w : World) : World :=
  match html5QrCodeRef w with
  | Some h =>
      if seen then suspend (AwaitStop h) (invoke h CallStop w)
      else cleanup_tail w
  | None => cleanup_tail w
  end.

(** After [stop()] resolved: [html5QrCodeRef.current.clear()] reads the
    ref again; on [null] the call throws and the [catch] block runs. *)
Definition cleanup_stopped (w : World) : World :=
  match html5QrCodeRef w with
  | Some h => cleanup_tail (invoke h CallClear w)
  | None => cleanup_catch w
  end.

(** *** The effect and the render that follows every handler *)

Definition depsChanged (w : World) : bool :=
  negb (Bool.eqb (depIsOpen (effect w)) (isOpen w)
        && Mode_eqb (depMode (effect w)) (scannerMode (st w))
        && String.eqb (depCamera (effect w)) (selectedCamera (st w))).

(** The body of the effect, run in a render that sees [selected]. *)
Definition runEffect (open : bool) (mode : Mode) (selected : string) (w : World) : World :=
  if open && Mode_eqb mode camera then initializeScanner selected w else w.

(** A render: when a dependency changed, the cleanup of the installed
    effect runs, with what that effect's render saw, and the effect of this
    render is run and installed. *)
Definition render (w : World) : World :=
  if mounted w && depsChanged w then
    let open := isOpen w in
    let mode := scannerMode (st w) in
    let selected := selectedCamera (st w) in
    let scanningNow := isScanning (st w) in
    let w := cleanup (seenScanning (effect w)) w in
    let w := runEffect open mode selected w in
    setEffect {| depIsOpen := open; depMode := mode; depCamera := selected;
                 seenScanning := scanningNow |} w
  else w.

(** *** Handlers *)

Definition onClose : World -> World := onHost (setShowBarcodeScanner false).

Definition handleScanSuccess (barcode : string) (w : World) : World :=
  onClose (onHost (handleBarcodeScanned barcode) w).

Definition handleManualSubmit (w : World) : World :=
  if truthy (trim (manualBarcode (st w)))
  then setManualBarcode "" (handleScanSuccess (trim (manualBarcode (st w))) w)
  else w.

(** [handleClose] belongs to the latest render: its [cleanup] sees the
    current [isScanning]. *)
Definition handleClose (w : World) : World :=
  onClose (setError "" (setManualBarcode "" (cleanup (isScanning (st w)) w))).

(** The error callback given to [start(...)]. *)
Definition onDecodeError (errorMessage : string) (w : World) : World :=
  if negb (includes errorMessage "No QR code found")
  then logLine ("Scan error: " ++ errorMessage) w
  else w.

(** *** Events *)

Inductive Event :=
| ClickScan
| ClickClose
| ClickMode (m : Mode)
| SelectCamera (cameraId : string)
| TypeBarcode (text : string)
| SubmitManual
| CamerasResolved (devices : list CameraDevice)
| CamerasRejected
| StartResolved (h : nat)
| StartRejected (h : nat)
| StopResolved (h : nat)
| StopRejected (h : nat)
| Decoded (h : nat) (decodedText : string)
| DecodeError (h : nat) (errorMessage : string)
| Unmount.

Definition Task_eqb (a b : Task) : bool :=
  match a, b with
  | AwaitGetCameras x, AwaitGetCameras y => String.eqb x y
  | AwaitStart h, AwaitStart k | AwaitStop h, AwaitStop k => Nat.eqb h k
  | _, _ => false
  end.

(** The oldest suspended call that [p] accepts, and the others. *)
Fixpoint takeTask (p : Task -> bool) (l : list Task) : option (Task * list Task) :=
  match l with
  | [] => None
  | t :: l' =>
      if p t then Some (t, l')
      else match takeTask p l' with
           | Some (t', r) => Some (t', t :: r)
           | None => None
           end
  end.

Definition isAwaitGetCameras (t : Task) : bool :=
  match t with AwaitGetCameras _ => true | _ => false end.

Definition isScanningInstance (h : nat) (w : World) : bool :=
  match nth_error (instances w) h with
  | Some i => scanning i
  | None => false
  end.

(** The handler of an event, when the event can happen: a control is
    there to be clicked, a promise is pending, a decode loop is running. *)
Definition handle (e : Event) (w : World) : option World :=
  match e with
  | ClickScan => Some (onHost (setShowBarcodeScanner true) w)
  | ClickClose => if isOpen w then Some (handleClose w) else None
  | ClickMode m => if isOpen w then Some (setScannerMode m w) else None
  | SelectCamera c =>
      if isOpen w && Mode_eqb (scannerMode (st w)) camera
         && (1 <? List.length (cameras (st w)))%nat
      then Some (setSelectedCamera c w) else None
  | TypeBarcode text =>
      if isOpen w && Mode_eqb (scannerMode (st w)) input
      then Some (setManualBarcode text w) else None
  | SubmitManual =>
      if isOpen w && Mode_eqb (scannerMode (st w)) input
      then Some (handleManualSubmit w) else None
  | CamerasResolved devices =>
      match takeTask isAwaitGetCameras (tasks w) with
      | Some (AwaitGetCameras selected, rest) =>
          Some (initializeScanner_cameras selected devices (setTasks rest w))
      | _ => None
      end
  | CamerasRejected =>
      match takeTask isAwaitGetCameras (tasks w) with
      | Some (_, rest) => Some (initializeScanner_catch (setTasks rest w))
      | None => None
      end
  | StartResolved h =>
      match takeTask (Task_eqb (AwaitStart h)) (tasks w) with
      | Some (_, rest) => Some (initializeScanner_started h (setTasks rest w))
      | None => None
      end
  | StartRejected h =>
      match takeTask (Task_eqb (AwaitStart h)) (tasks w) with
      | Some (_, rest) => Some (initializeScanner_catch (setTasks rest w))
      | None => None
      end
  | StopResolved h =>
      match takeTask (Task_eqb (AwaitStop h)) (tasks w) with
      | Some (_, rest) => Some (cleanup_stopped (setTasks rest w))
      | None => None
      end
  | StopRejected h =>
      match takeTask (Task_eqb (AwaitStop h)) (tasks w) with
      | Some (_, rest) => Some (cleanup_catch (setTasks rest w))
      | None => None
      end
  | Decoded h text =>
      if isScanningInstance h w then Some (handleScanSuccess text w) else None
  | DecodeError h msg =>
      if isScanningInstance h w then Some (onDecodeError msg w) else None
  | Unmount =>
      if mounted w
      then Some (setMounted false (cleanup (seenScanning (effect w)) w))
      else None
  end.

(** One event: its handler, then the render it causes. *)
Definition step (e : Event) (w : World) : option World :=
  match handle e w with
  | Some w' => Some (render w')
  | None => None
  end.

Fixpoint run (es : list Event) (w : World) : option World :=
  match es with
  | [] => Some w
  | e :: es' =>
      match step e w with
      | Some w' => run es' w'
      | None => None
      end
  end.

(** The component as mounted by the screen: closed, in camera mode, its
    effect installed by the first render. *)
Definition mount (s : Screen) : World :=
  {| host := setShowBarcodeScanner false s;
     st := {| scannerMode := camera; manualBarcode := ""; isScanning := false;
              error := ""; cameras := []; selectedCamera := "" |};
     scannerRef := None; html5QrCodeRef := None; mounted := true;
     effect := {| depIsOpen := false; depMode := camera; depCamera := "";
                  seenScanning := false |};
     instances := []; tasks := []; console := [] |}.

(** *** What the user sees, and what is held *)

(** The error banner: [{error && ...}] in an open scanner. *)
Definition shownError (w : World) : option string :=
  if isOpen w && truthy (error (st w)) then Some (error (st w)) else None.

(** The manual form is on screen. *)
Definition manualFormShown (w : World) : bool :=
  isOpen w && Mode_eqb (scannerMode (st w)) input.

Definition startCalled (i : Html5Qrcode) : bool :=
  existsb (fun c => match c with CallStart _ => true | _ => false end) (calls i).

Definition stopCalled (i : Html5Qrcode) : bool :=
  existsb (fun c => match c with CallStop => true | _ => false end) (calls i).

Definition clearCalled (i : Html5Qrcode) : bool :=
  existsb (fun c => match c with CallClear => true | _ => false end) (calls i).

(** A capture session is released once it was stopped and cleared. *)
Definition released (i : Html5Qrcode) : bool := stopCalled i && clearCalled i.

(** No capture session is open: nothing is referenced, nothing runs. *)
Definition noSession (w : World) : Prop :=
  html5QrCodeRef w = None /\ scannerRef w = None /\ isScanning (st w) = false.

Definition frontCamera : CameraDevice := {| deviceId := "cam0"; label := "Front" |}.

Definition backCamera : CameraDevice := {| deviceId := "cam1"; label := "Back" |}.

(** The scanner of a screen that sells cola, and the same once the Scan
    button was clicked. *)
Definition closedScanner : World := mount (emptyScreen [colaProduct]).

Definition openedScanner : World :=
  render (onHost (setShowBarcodeScanner true) closedScanner).

End Scanner.

(** ** The POS screen as a whole: search, cart controls, checkout *)
Module Pos.
Import JsString Catalog Cart Screen.

(** The [useState] cells of the screen that [Screen] leaves out. *)
Record Pos := {
  screen : Screen;
  searchTerm : string;
  selectedCategory : string;
  showCheckout : bool;
  showCalculator : bool
}.

Definition onScreen (f : Screen -> Screen) (p : Pos) : Pos :=
  {| screen := f (screen p); searchTerm := searchTerm p;
     selectedCategory := selectedCategory p; showCheckout := showCheckout p;
     showCalculator := showCalculator p |}.

Definition setSearchTerm (t : string) (p : Pos) : Pos :=
  {| screen := screen p; searchTerm := t; selectedCategory := selectedCategory p;
     showCheckout := showCheckout p; showCalculator := showCalculator p |}.

Definition setSelectedCategory (c : string) (p : Pos) : Pos :=
  {| screen := screen p; searchTerm := searchTerm p; selectedCategory := c;
     showCheckout := showCheckout p; showCalculator := showCalculator p |}.

Definition setShowCheckout (b : bool) (p : Pos) : Pos :=
  {| screen := screen p; searchTerm := searchTerm p;
     selectedCategory := selectedCategory p; showCheckout := b;
     showCalculator := showCalculator p |}.

Definition setShowCalculator (b : bool) (p : Pos) : Pos :=
  {| screen := screen p; searchTerm := searchTerm p;
     selectedCategory := selectedCategory p; showCheckout := showCheckout p;
     showCalculator := b |}.

(** [loadProducts]: the stored collection, or nothing when
    [LocalStorage.load] throws (the products then stay [[]]). *)
Definition loadProducts (stored : option (list Product)) : list Product :=
  match stored with
  | Some data => data
  | None => []
  end.

(** The screen after its first effect: empty search, category "all",
    empty cart, every modal closed. *)
Definition mounted (stored : option (list Product)) : Pos :=
  {| screen := emptyScreen (loadProducts stored); searchTerm := "";
     selectedCategory := "all"; showCheckout := false; showCalculator := false |}.

(** The product cards on screen. *)
Definition cards (p : Pos) : list Product :=
  filteredProducts (products (screen p)) (searchTerm p) (selectedCategory p).

(** The [<option>] values of the category [<select>]. *)
Definition categoryOptions (p : Pos) : list string := categories (products (screen p)).

(** The text of an option. *)
Definition optionText (c : string) : string :=
  if String.eqb c "all" then "All Categories" else c.

(** The cart panel shows "Your cart is empty" or the lines, the total and
    the Checkout button. *)
Definition checkoutButtonShown (p : Pos) : bool :=
  negb (Nat.eqb (List.length (items (screen p))) 0).

(** [handleCheckoutComplete]: [setShowCheckout(false); clearCart()]. *)
Definition onComplete (p : Pos) : Pos :=
  onScreen handleCheckoutComplete (setShowCheckout false p).

(** What the user, the scanner, the checkout modal and the timers do to
    the screen; positions count the rendered cards, options and lines. *)
Inductive PosEvent :=
| TypeSearch (text : string)
| SelectCategory (k : nat)
| ClickProduct (k : nat)
| ClickMinus (k : nat)
| ClickPlus (k : nat)
| ClickTrash (k : nat)
| ClickScanButton
| ScannerClose
| ScannerScan (barcode : string)
| ClickCalculator
| CalculatorClose
| ClickCheckout
| CheckoutClose
| CheckoutComplete
| NoticeExpired (k : nat).

Definition posStep (e : PosEvent) (p : Pos) : option Pos :=
  match e with
  | TypeSearch text => Some (setSearchTerm text p)
  | SelectCategory k =>
      match nth_error (categoryOptions p) k with
      | Some c => Some (setSelectedCategory c p)
      | None => None
      end
  | ClickProduct k =>
      match nth_error (cards p) k with
      | Some product => Some (onScreen (setItems (addItem product)) p)
      | None => None
      end
  | ClickMinus k =>
      match nth_error (items (screen p)) k with
      | Some item =>
          Some (onScreen (setItems (updateQuantity (id (product item)) (quantity item - 1))) p)
      | None => None
      end
  | ClickPlus k =>
      match nth_error (items (screen p)) k with
      | Some item =>
          Some (onScreen (setItems (updateQuantity (id (product item)) (quantity item + 1))) p)
      | None => None
      end
  | ClickTrash k =>
      match nth_error (items (screen p)) k with
      | Some item => Some (onScreen (setItems (removeItem (id (product item)))) p)
      | None => None
      end
  | ClickScanButton => Some (onScreen (setShowBarcodeScanner true) p)
  | ScannerClose => Some (onScreen (setShowBarcodeScanner false) p)
  | ScannerScan barcode => Some (onScreen (handleBarcodeScanned barcode) p)
  | ClickCalculator => Some (setShowCalculator true p)
  | CalculatorClose => Some (setShowCalculator false p)
  | ClickCheckout =>
      if checkoutButtonShown p then Some (setShowCheckout true p) else None
  | CheckoutClose => Some (setShowCheckout false p)
  | CheckoutComplete => Some (onComplete p)
  | NoticeExpired k =>
      match fireTimeout k (screen p) with
      | Some s => Some (onScreen (fun _ => s) p)
      | None => None
      end
  end.

Fixpoint posRun (es : list PosEvent) (p : Pos) : option Pos :=
  match es with
  | [] => Some p
  | e :: es' =>
      match posStep e p with
      | Some p' => posRun es' p'
      | None => None
      end
  end.

(** *** Invariants of the screen *)

(** Every line of the cart is for a product of the catalog, no product
    has two lines, and every quantity is at least 1. *)
Definition CartOk (catalog : list Product) (l : list CartLine) : Prop :=
  OneLinePerProduct l
  /\ forall x, In x l -> In (product x) catalog /\ (1 <= quantity x)%Z.

(** The notices on the page are, in order, those of the pending timers;
    their nodes are distinct and were created by this screen; every timer
    waits 3000 ms. *)
Definition NoticesOk (s : Screen) : Prop :=
  map node (body s) = map removes (timeouts s)
  /\ NoDup (map node (body s))
  /\ (forall n, In n (body s) -> (node n < nextNode s)%nat)
  /\ (forall t, In t (timeouts s) -> delay t = 3000%Z).

(** What every event of the screen keeps true, for the catalog it was
    mounted with. *)
Definition Kept (catalog : list Product) (p : Pos) : Prop :=
  products (screen p) = catalog
  /\ CartOk catalog (items (screen p))
  /\ NoticesOk (screen p)
  /\ In (selectedCategory p) (categories catalog).

End Pos.

(** ** The layout: header and role-based menu *)
Module Layout.
Import JsString.

Record MenuItem := {
  itemId : string;
  itemLabel : string;
  icon : string
}.

Definition adminMenuItems : list MenuItem :=
  [ {| itemId := "pos"; itemLabel := "POS"; icon := "Receipt" |};
    {| itemId := "products"; itemLabel := "Products"; icon := "Package" |};
    {| itemId := "employees"; itemLabel := "Employees"; icon := "Users" |};
    {| itemId := "vouchers"; itemLabel := "Vouchers"; icon := "Gift" |};
    {| itemId := "reports"; itemLabel := "Reports"; icon := "Receipt" |};
    {| itemId := "attendance"; itemLabel := "Attendance"; icon := "Clock" |};
    {| itemId := "settings"; itemLabel := "Settings"; icon := "Settings" |} ].

Definition employeeMenuItems : list MenuItem :=
  [ {| itemId := "pos"; itemLabel := "POS"; icon := "Receipt" |};
    {| itemId := "timecard"; itemLabel := "Time Card"; icon := "Clock" |} ].

(** Modelled from the spec: the user of the auth context ([useAuth], not
    among the sources): a name and a role, "admin vs employee"; the user
    may be absent. *)
Record User := {
  userName : string;
  role : string
}.

(** Modelled from the spec: the settings of the settings context
    ([useSettings], not among the sources), as far as the layout reads
    them. *)
Record Settings := {
  logo_url : option string;
  primary_color : string;
  brand_name : string
}.

(** [user?.role === 'admin'] *)
Definition isAdmin (user : option User) : bool :=
  match user with
  | Some u => String.eqb (role u) "admin"
  | None => false
  end.

Definition menuItems (user : option User) : list MenuItem :=
  if isAdmin user then adminMenuItems else employeeMenuItems.

(** A button of the side bar: its React key, its text, whether it is
    drawn as the current view, its background and the view that a click
    hands to [onViewChange]. *)
Record NavButton := {
  key : string;
  text : string;
  current : bool;
  backgroundColor : string;
  opens : string
}.

Definition navButton (settings : Settings) (currentView : string) (item : MenuItem)
  : NavButton :=
  {| key := itemId item;
     text := itemLabel item;
     current := String.eqb currentView (itemId item);
     backgroundColor :=
       if String.eqb currentView (itemId item) then primary_color settings
       else "transparent";
     opens := itemId item |}.

Definition sidebar (settings : Settings) (user : option User) (currentView : string)
  : list NavButton :=
  map (navButton settings currentView) (menuItems user).

(** A click on the [k]-th button: the view given to [onViewChange]. *)
Definition clickNav (settings : Settings) (user : option User) (currentView : string)
  (k : nat) : option string :=
  match nth_error (sidebar settings user currentView) k with
  | Some b => Some (opens b)
  | None => None
  end.

End Layout.

(** ** The scanner: what it draws, and quiet events *)
Module ScannerView.
Import JsString Catalog Cart Screen Scanner.

(** The camera [<select>] is drawn in camera mode when there are several
    cameras. *)
Definition cameraSelectShown (w : World) : bool :=
  isOpen w && Mode_eqb (scannerMode (st w)) camera
  && (1 <? List.length (cameras (st w)))%nat.

(** [camera.label || `Camera ${camera.id}`] *)
Definition cameraOptionText (c : CameraDevice) : string :=
  if truthy (label c) then label c else "Camera " ++ deviceId c.

(** [disabled={!manualBarcode.trim()}] on the submit button. *)
Definition submitDisabled (w : World) : bool :=
  negb (truthy (trim (manualBarcode (st w)))).

(** The "Initializing camera..." placeholder. *)
Definition initializingShown (w : World) : bool :=
  isOpen w && Mode_eqb (scannerMode (st w)) camera
  && negb (isScanning (st w)) && negb (truthy (error (st w))).



(** The effect in place is the one of the current dependencies, as it is
    after every render. *)
Definition inSync (w : World) : bool := negb (depsChanged w).


(** The capture object [h] was asked to stop and its decode loop is off. *)
Definition stoppedAt (h : nat) (w : World) : bool :=
  match nth_error (instances w) h with
  | Some i => stopCalled i && negb (scanning i)
  | None => false
  end.

(** The scanner after an enumeration that found no camera. *)
Definition manualScanner : World :=
  render (initializeScanner_cameras "" [] (setTasks [] openedScanner)).

(** The scanner after enumeration and start on the front camera. *)
Definition scanningScanner : World :=
  render (initializeScanner_started 0
            (setTasks []
               (render (initializeScanner_cameras "" [frontCamera]
                          (setTasks [] openedScanner))))).

End ScannerView.

(** * Properties *)

(** ** Substring search and case folding *)
Module JsStringFacts.
Import JsString.

(** *** Facts about substring search *)

Lemma startsWith_iff s t :
  startsWith s t = true <-> exists post, s = t ++ post.
Proof.
  revert s; induction t as [|c t IH]; intros s; simpl.
  - split; [intros _; now exists s | reflexivity].
  - destruct s as [|d s]; simpl.
    + split; [discriminate | intros [post H]; discriminate].
    + rewrite andb_true_iff, Ascii.eqb_eq, IH. split.
      * intros [-> [post ->]]. now exists post.
      * intros [post H]. injection H as -> ->. split; [reflexivity | now exists post].
Qed.

Lemma append_assoc (a b c : string) : (a ++ b) ++ c = a ++ (b ++ c).
Proof. induction a as [|x a IH]; simpl; [reflexivity | now rewrite IH]. Qed.

Lemma append_nil_r (a : string) : a ++ "" = a.
Proof. induction a as [|x a IH]; simpl; [reflexivity | now rewrite IH]. Qed.

Lemma includes_iff s t :
  includes s t = true <-> exists pre post, s = pre ++ t ++ post.
Proof.
  induction s as [|d s IH].
  - simpl. rewrite orb_false_r, startsWith_iff. split.
    + intros [post H]. now exists "", post.
    + intros [pre [post H]]. destruct pre; [now exists post | discriminate].
  - cbn [includes]. rewrite orb_true_iff, startsWith_iff, IH. split.
    + intros [[post H] | [pre [post H]]].
      * now exists "", post.
      * exists (String d pre), post. simpl. now rewrite H.
    + intros [pre [post H]]. destruct pre as [|x pre]; simpl in H.
      * left. now exists post.
      * right. injection H as _ H. now exists pre, post.
Qed.

(** *** Facts about case folding *)

Lemma toLowerCase_app a b : toLowerCase (a ++ b) = toLowerCase a ++ toLowerCase b.
Proof. induction a as [|x a IH]; simpl; [reflexivity | now rewrite IH]. Qed.

Lemma toLowerCase_split s x y :
  toLowerCase s = x ++ y ->
  exists a b, s = a ++ b /\ toLowerCase a = x /\ toLowerCase b = y.
Proof.
  revert s; induction x as [|c x IH]; intros s H; simpl in H.
  - now exists "", s.
  - destruct s as [|d s]; simpl in H; [discriminate |].
    injection H as Hc H. destruct (IH _ H) as [a [b [-> [Ha Hb]]]].
    exists (String d a), b. simpl. now rewrite Hc, Ha.
Qed.

Lemma allCodeUnits_complete (c : ascii) : In c allCodeUnits.
Proof.
  unfold allCodeUnits. rewrite <- (ascii_nat_embedding c).
  apply in_map. apply in_seq. pose proof (nat_ascii_bounded c). lia.
Qed.

(** Two code units fold to the same one exactly when they are the same
    letter: checked on every pair of code units. *)
Lemma lowerChar_sameLetter (c d : ascii) :
  Ascii.eqb (lowerChar c) (lowerChar d) = sameLetter c d.
Proof.
  assert (H : forallb (fun c => forallb (fun d =>
                Bool.eqb (Ascii.eqb (lowerChar c) (lowerChar d)) (sameLetter c d))
                allCodeUnits) allCodeUnits = true)
    by (vm_compute; reflexivity).
  rewrite forallb_forall in H. specialize (H c (allCodeUnits_complete c)).
  rewrite forallb_forall in H. specialize (H d (allCodeUnits_complete d)).
  now apply Bool.eqb_prop.
Qed.

Lemma toLowerCase_eq_iff s t :
  toLowerCase s = toLowerCase t <-> equalIgnoringCase s t = true.
Proof.
  revert t. induction s as [|c s IH]; intros [|d t]; simpl;
    try (split; [discriminate | discriminate]); [tauto |].
  rewrite andb_true_iff, <- lowerChar_sameLetter, Ascii.eqb_eq, <- IH.
  split; [intros [= H1 H2]; now split | intros [-> ->]; reflexivity].
Qed.

Lemma containsIgnoringCase_folded s t :
  containsIgnoringCase s t <->
  exists pre mid post, s = pre ++ mid ++ post /\ toLowerCase mid = toLowerCase t.
Proof.
  unfold containsIgnoringCase.
  split; intros [pre [mid [post [H1 H2]]]]; exists pre, mid, post;
    (split; [exact H1 | now apply toLowerCase_eq_iff]).
Qed.

Lemma includes_lower_iff s t :
  includes (toLowerCase s) (toLowerCase t) = true <-> containsIgnoringCase s t.
Proof.
  rewrite containsIgnoringCase_folded, includes_iff. split.
  - intros [x [y H]].
    destruct (toLowerCase_split _ _ _ H) as [pre [r [-> [Hpre Hr]]]].
    destruct (toLowerCase_split _ _ _ Hr) as [mid [post [-> [Hmid Hpost]]]].
    now exists pre, mid, post.
  - intros [pre [mid [post [-> Hmid]]]].
    exists (toLowerCase pre), (toLowerCase post).
    now rewrite !toLowerCase_app, Hmid.
Qed.

(** The fold reaches the accented capitals and leaves the signs alone;
    white space includes the no-break space. *)
Example fold_and_trim_beyond_ascii :
  includes (toLowerCase ("CAF" ++ capitalEacute)) (toLowerCase ("caf" ++ smallEacute)) = true
  /\ toLowerCase (String "215"%char "") = String "215"%char ""
  /\ trim (noBreakSpace ++ " 111" ++ noBreakSpace) = "111"
  /\ trim noBreakSpace = "".
Proof. repeat split. Qed.

End JsStringFacts.

(** ** The catalog: filtering, categories, barcode lookup *)
Module CatalogFacts.
Import JsString JsStringFacts Catalog.

(** *** Filtering *)

Lemma matchesFilter_iff searchTerm selectedCategory p :
  matchesFilter searchTerm selectedCategory p = true <-> Wanted searchTerm selectedCategory p.
Proof.
  unfold matchesFilter, Wanted.
  rewrite andb_true_iff, orb_true_iff, includes_lower_iff, !String.eqb_eq.
  reflexivity.
Qed.





Lemma includes_empty s : includes s "" = true.
Proof. destruct s; reflexivity. Qed.




(** *** Barcode lookup *)

Lemma barcodeIs_iff code p : barcodeIs code p = true <-> barcode p = Some code.
Proof.
  unfold barcodeIs. destruct (barcode p) as [b|].
  - rewrite String.eqb_eq. split; [now intros -> | now intros [= ->]].
  - split; discriminate.
Qed.

Lemma Array_find_Some {A} (f : A -> bool) l x :
  Array_find f l = Some x <->
  exists l1 l2, l = (l1 ++ x :: l2)%list /\ f x = true /\ forall y, In y l1 -> f y = false.
Proof.
  induction l as [|a l IH]; simpl.
  - split; [discriminate | intros [l1 [l2 [H _]]]; destruct l1; discriminate].
  - destruct (f a) eqn:E.
    + split.
      * intros [= <-]. exists [], l. simpl. repeat split; [assumption | tauto].
      * intros [l1 [l2 [H [Hx Hl1]]]]. destruct l1 as [|b l1]; simpl in H.
        -- now injection H as ->.
        -- injection H as -> _. rewrite (Hl1 b) in E; [discriminate | now left].
    + rewrite IH. split.
      * intros [l1 [l2 [-> [Hx Hl1]]]]. exists (a :: l1), l2. simpl.
        repeat split; [assumption |]. intros y [<- | Hy]; [assumption | now apply Hl1].
      * intros [l1 [l2 [H [Hx Hl1]]]]. destruct l1 as [|b l1]; simpl in H.
        -- injection H as -> _. congruence.
        -- injection H as _ ->. exists l1, l2. repeat split; [assumption |].
           intros y Hy. apply Hl1. now right.
Qed.

Lemma Array_find_None {A} (f : A -> bool) l :
  Array_find f l = None <-> forall y, In y l -> f y = false.
Proof.
  induction l as [|a l IH]; simpl.
  - split; [intros _ y [] | reflexivity].
  - destruct (f a) eqn:E.
    + split; [discriminate |]. intros H. rewrite (H a) in E; [discriminate | now left].
    + rewrite IH. split.
      * intros H y [<- | Hy]; [assumption | now apply H].
      * intros H y Hy. apply H. now right.
Qed.

(** C4: a hit is a product of the catalog whose barcode is the code itself
    (string identity: no case folding, no trimming); the lookup misses
    exactly when no product carries the code, so it misses on the empty
    catalog and on a catalog where no product has a barcode; and it hits
    as soon as some product carries the code. *)
Theorem findByBarcode_exact (products : list Product) (code : string) :
  (forall p, findByBarcode products code = Some p ->
             In p products /\ barcode p = Some code)
  /\ (findByBarcode products code = None <->
      forall p, In p products -> barcode p <> Some code)
  /\ ((exists p, In p products /\ barcode p = Some code) ->
      exists p, findByBarcode products code = Some p)
  /\ findByBarcode [] code = None
  /\ ((forall p, In p products -> barcode p = None) ->
      findByBarcode products code = None).
Proof.
  unfold findByBarcode.
  assert (HN : Array_find (barcodeIs code) products = None <->
               forall p, In p products -> barcode p <> Some code).
  { rewrite Array_find_None. split; intros H p Hp.
    - intros Hb. apply barcodeIs_iff in Hb. rewrite (H p Hp) in Hb. discriminate.
    - destruct (barcodeIs code p) eqn:E; [| reflexivity].
      apply barcodeIs_iff in E. now elim (H p Hp). }
  repeat split.
  - apply Array_find_Some in H. destruct H as [l1 [l2 [-> _]]].
    apply in_or_app. right. now left.
  - apply Array_find_Some in H. destruct H as [l1 [l2 [_ [H _]]]]. now apply barcodeIs_iff.
  - apply HN.
  - apply HN.
  - intros [p [Hp Hb]].
    destruct (Array_find (barcodeIs code) products) as [q|] eqn:E; [now exists q |].
    exfalso. exact (proj1 HN eq_refl p Hp Hb).
  - intros H. apply HN. intros p Hp. rewrite (H p Hp). discriminate.
Qed.

(** The comparison is exact: another letter case or a surrounding blank
    is a miss. *)
Example findByBarcode_no_normalization :
  findByBarcode [{| id := "9"; name := "Tea"; category := "drinks"; price := 1;
                    stock := 1; barcode := Some "abc"; image_url := None |}] "ABC" = None
  /\ findByBarcode [colaProduct] " 111" = None
  /\ findByBarcode [colaProduct] "111" = Some colaProduct.
Proof. repeat split. Qed.

Lemma findByBarcode_exact_witness :
  findByBarcode [colaProduct; chipsProduct] "111" = Some colaProduct
  /\ In colaProduct [colaProduct; chipsProduct] /\ barcode colaProduct = Some "111".
Proof.
  split; [reflexivity |].
  apply (proj1 (findByBarcode_exact [colaProduct; chipsProduct] "111") colaProduct).
  reflexivity.
Defined.

(** C10: when several products carry the code, the lookup returns the
    first of them in catalog order. *)
Theorem findByBarcode_first (before after : list Product) (p : Product) (code : string) :
  barcode p = Some code ->
  (forall q, In q before -> barcode q <> Some code) ->
  findByBarcode (before ++ p :: after) code = Some p.
Proof.
  intros Hp Hbefore. unfold findByBarcode. apply Array_find_Some.
  exists before, after. repeat split.
  - now apply barcodeIs_iff.
  - intros q Hq. destruct (barcodeIs code q) eqn:E; [| reflexivity].
    apply barcodeIs_iff in E. now elim (Hbefore q Hq).
Qed.

Lemma findByBarcode_first_witness :
  findByBarcode ([chipsProduct] ++ colaProduct :: [cloneProduct]) "111" = Some colaProduct.
Proof.
  apply (findByBarcode_first [chipsProduct] [cloneProduct] colaProduct "111").
  - reflexivity.
  - intros q [<- | []]. simpl. discriminate.
Defined.

(** *** Categories *)

Lemma filter_filter {A} (f g : A -> bool) l :
  filter f (filter g l) = filter (fun x => g x && f x) l.
Proof.
  induction l as [|x l IH]; simpl; [reflexivity |].
  destruct (g x); simpl; [destruct (f x) |]; now rewrite IH.
Qed.

(** Adding the labels of [l] to a set that holds [acc] appends the labels
    of [l] that are new, each at its first occurrence. *)
Lemma fold_Set_add l : forall acc,
  fold_left Set_add l acc =
  (acc ++ filter (fun y => negb (existsb (String.eqb y) acc)) (firstSeen l))%list.
Proof.
  induction l as [|x l IH]; intros acc; simpl.
  - now rewrite app_nil_r.
  - rewrite IH. unfold Set_add. destruct (existsb (String.eqb x) acc) eqn:E; simpl.
    + f_equal. rewrite filter_filter. apply filter_ext. intros y.
      destruct (String.eqb_spec y x) as [-> | Hne]; simpl; [now rewrite E | reflexivity].
    + rewrite <- app_assoc. simpl. f_equal. f_equal.
      rewrite filter_filter. apply filter_ext. intros y.
      rewrite existsb_app. simpl. rewrite orb_false_r, negb_orb. apply andb_comm.
Qed.

Lemma Set_from_firstSeen l : Set_from l = firstSeen l.
Proof.
  unfold Set_from. rewrite fold_Set_add. simpl.
  induction (firstSeen l) as [|x r IH]; simpl; [reflexivity | now rewrite IH].
Qed.

Lemma firstSeen_In l c : In c (firstSeen l) <-> In c l.
Proof.
  induction l as [|x l IH]; simpl; [reflexivity |].
  rewrite filter_In, IH. split.
  - intros [H | [H _]]; [now left | now right].
  - intros [H | H]; [now left |].
    destruct (String.eqb_spec c x) as [-> | Hne]; [now left | right; now split].
Qed.

Lemma firstSeen_NoDup l : NoDup (firstSeen l).
Proof.
  induction l as [|x l IH]; simpl; constructor.
  - rewrite filter_In. intros [_ H]. now rewrite String.eqb_refl in H.
  - now apply NoDup_filter.
Qed.

Lemma StronglySorted_filter_weaken {A} (R R' : A -> A -> Prop) (f : A -> bool) l :
  StronglySorted R l ->
  (forall a b, f a = true -> f b = true -> R a b -> R' a b) ->
  StronglySorted R' (filter f l).
Proof.
  intros H HR. induction H as [|a l Hl IH Ha]; simpl; [constructor |].
  destruct (f a) eqn:E; [| exact IH].
  constructor; [exact IH |].
  apply Forall_forall. intros b Hb. apply filter_In in Hb. destruct Hb as [Hb Hfb].
  apply HR; try assumption. rewrite Forall_forall in Ha. now apply Ha.
Qed.

(** [firstSeen l] lists the labels by increasing position of their first
    occurrence in [l]. *)
Lemma firstSeen_sorted l :
  StronglySorted (fun a b => firstIndex a l < firstIndex b l)%nat (firstSeen l).
Proof.
  induction l as [|x l IH]; simpl; constructor.
  - eapply StronglySorted_filter_weaken; [exact IH |].
    intros a b Ha Hb Hab. simpl in Ha, Hb, Hab |- *.
    destruct (String.eqb_spec a x) as [-> | Hax]; [discriminate |].
    destruct (String.eqb_spec b x) as [-> | Hbx]; [discriminate |].
    destruct (String.eqb_spec x a); [congruence |].
    destruct (String.eqb_spec x b); [congruence |].
    lia.
  - apply Forall_forall. intros b Hb. apply filter_In in Hb. destruct Hb as [_ Hb].
    rewrite String.eqb_refl.
    destruct (String.eqb_spec x b) as [-> | Hne]; [now rewrite String.eqb_refl in Hb | lia].
Qed.

(** What the code computes for the category menu: the list starts with
    "all"; what follows holds exactly the category labels of the products,
    without repetition, by increasing position of first occurrence; the
    whole list is free of repetition exactly when no product is filed
    under the label "all". *)
Theorem categories_first_seen (products : list Product) :
  exists labels,
    categories products = "all" :: labels
    /\ NoDup labels
    /\ (forall c, In c labels <-> exists p, In p products /\ category p = c)
    /\ StronglySorted
         (fun a b => firstIndex a (map category products)
                     < firstIndex b (map category products))%nat labels
    /\ (NoDup (categories products) <->
        forall p, In p products -> category p <> "all").
Proof.
  exists (firstSeen (map category products)).
  assert (Hin : forall c, In c (firstSeen (map category products)) <->
                          exists p, In p products /\ category p = c).
  { intros c. rewrite firstSeen_In, in_map_iff. split; intros [p [H1 H2]]; exists p; tauto. }
  unfold categories. rewrite Set_from_firstSeen.
  repeat split.
  - apply firstSeen_NoDup.
  - apply Hin.
  - apply Hin.
  - apply firstSeen_sorted.
  - intros H p Hp Hc. inversion H as [|? ? Hnot _]; subst.
    apply Hnot. apply Hin. now exists p.
  - intros H. constructor; [| apply firstSeen_NoDup].
    intros Hall. apply Hin in Hall. destruct Hall as [p [Hp Hc]]. exact (H p Hp Hc).
Qed.

(** C6: the labels returned are not pairwise distinct when a product is
    filed under "all": the code keeps the labels distinct with a [Set] and
    uses them as keys and values of the options, but prepends the sentinel
    without looking at them, so that "all" comes twice. *)
Lemma categories_repeat_all :
  categories [colaProduct; miscProduct] = ["all"; "drinks"; "all"]
  /\ ~ NoDup (categories [colaProduct; miscProduct]).
Proof.
  split; [reflexivity |].
  intros H. apply (proj1 (NoDup_cons_iff _ _)) in H. destruct H as [H _].
  apply H. vm_compute. tauto.
Qed.

End CatalogFacts.

(** ** The cart *)
Module CartFacts.
Import Catalog Cart.

Lemma linesFor_nil_iff productId items :
  linesFor productId items = [] <-> existsb (lineFor productId) items = false.
Proof.
  unfold linesFor. induction items as [|l items IH]; simpl; [tauto |].
  destruct (lineFor productId l); simpl; [split; discriminate | exact IH].
Qed.

Lemma linesFor_app productId a b :
  linesFor productId (a ++ b)%list = (linesFor productId a ++ linesFor productId b)%list.
Proof. apply filter_app. Qed.

Lemma map_untouched (f : CartLine -> CartLine) productId items :
  linesFor productId items = [] ->
  map (fun l => if lineFor productId l then f l else l) items = items.
Proof.
  unfold linesFor. induction items as [|l items IH]; simpl; [reflexivity |].
  destruct (lineFor productId l); [discriminate |]. intros H. now rewrite IH.
Qed.

Lemma map_single (f : CartLine -> CartLine) productId before l after :
  lineFor productId l = true ->
  linesFor productId before = [] -> linesFor productId after = [] ->
  map (fun x => if lineFor productId x then f x else x) (before ++ l :: after)%list
  = (before ++ f l :: after)%list.
Proof.
  intros Hl Hb Ha. rewrite map_app. simpl.
  now rewrite Hl, (map_untouched f _ _ Hb), (map_untouched f _ _ Ha).
Qed.

Lemma addItem_new p items :
  linesFor (id p) items = [] ->
  addItem p items = (items ++ [{| product := p; quantity := 1 |}])%list.
Proof. intros H. unfold addItem. now rewrite (proj1 (linesFor_nil_iff _ _) H). Qed.

Lemma addItem_existing p before l after :
  id (product l) = id p ->
  linesFor (id p) before = [] -> linesFor (id p) after = [] ->
  addItem p (before ++ l :: after)%list
  = (before ++ withQuantity (quantity l + 1) l :: after)%list.
Proof.
  intros Hid Hb Ha.
  assert (Hl : lineFor (id p) l = true) by (unfold lineFor; now rewrite Hid, String.eqb_refl).
  unfold addItem. rewrite existsb_app. simpl. rewrite Hl, orb_true_r. simpl.
  induction before as [|x before IH]; simpl.
  - rewrite Hl. f_equal. now apply (map_untouched (fun l => withQuantity (quantity l + 1) l)).
  - unfold linesFor in Hb. simpl in Hb. destruct (lineFor (id p) x) eqn:E; [discriminate |].
    f_equal. now apply IH.
Qed.

(** C1: [addItem] appends a line with quantity 1 when the cart has no
    line for the product, and adds 1 to the quantity of the line of the
    product when the cart has one, leaving the other lines as they are;
    so after [n >= 1] calls for a product that had no line, the cart is
    the old cart followed by one line for the product, with quantity [n],
    and that is its only line for the product. *)
Theorem addItem_counts (items : list CartLine) (p : Product) :
  (linesFor (id p) items = [] ->
   addItem p items = (items ++ [{| product := p; quantity := 1 |}])%list)
  /\ (forall before l after,
        items = (before ++ l :: after)%list -> id (product l) = id p ->
        linesFor (id p) before = [] -> linesFor (id p) after = [] ->
        addItem p items = (before ++ withQuantity (quantity l + 1) l :: after)%list)
  /\ (linesFor (id p) items = [] ->
      forall n, (0 < n)%nat ->
        Nat.iter n (addItem p) items
        = (items ++ [{| product := p; quantity := Z.of_nat n |}])%list
        /\ linesFor (id p) (Nat.iter n (addItem p) items)
           = [{| product := p; quantity := Z.of_nat n |}]).
Proof.
  split; [apply addItem_new |].
  split; [intros before l after ->; apply addItem_existing |].
  intros Hnone n Hn.
  assert (Hiter : Nat.iter n (addItem p) items
                  = (items ++ [{| product := p; quantity := Z.of_nat n |}])%list).
  { destruct n as [|n]; [lia | clear Hn].
    induction n as [|n IH].
    - simpl. now apply addItem_new.
    - change (Nat.iter (S (S n)) (addItem p) items)
        with (addItem p (Nat.iter (S n) (addItem p) items)).
      rewrite IH, addItem_existing; try reflexivity; try assumption.
      unfold withQuantity. simpl product. simpl quantity.
      do 3 f_equal. lia. }
  split; [exact Hiter |].
  rewrite Hiter, linesFor_app, Hnone. unfold linesFor, lineFor. simpl.
  now rewrite String.eqb_refl.
Qed.

Lemma addItem_counts_witness :
  Nat.iter 2 (addItem colaProduct) [] = [{| product := colaProduct; quantity := 2 |}]
  /\ linesFor "1" (Nat.iter 2 (addItem colaProduct) [])
     = [{| product := colaProduct; quantity := 2 |}].
Proof.
  apply (proj2 (proj2 (addItem_counts [] colaProduct)) eq_refl 2%nat). lia.
Defined.

Lemma removeItem_linesFor productId items :
  linesFor productId (removeItem productId items) = [].
Proof.
  unfold linesFor, removeItem. induction items as [|l items IH]; simpl; [reflexivity |].
  destruct (lineFor productId l) eqn:E; simpl; [exact IH | now rewrite E].
Qed.

Lemma removeItem_untouched productId items :
  linesFor productId items = [] -> removeItem productId items = items.
Proof.
  unfold linesFor, removeItem. induction items as [|l items IH]; simpl; [reflexivity |].
  destruct (lineFor productId l); [discriminate |]. simpl. intros H. now rewrite IH.
Qed.

Lemma removeItem_single productId before l after :
  lineFor productId l = true ->
  linesFor productId before = [] -> linesFor productId after = [] ->
  removeItem productId (before ++ l :: after)%list = (before ++ after)%list.
Proof.
  intros Hl Hb Ha. unfold removeItem. rewrite filter_app. simpl. rewrite Hl. simpl.
  fold (removeItem productId before). fold (removeItem productId after).
  now rewrite !removeItem_untouched.
Qed.

(** C5: for a cart with one line [l] for [productId], a new quantity of
    zero or less takes the line out and a positive one puts exactly that
    quantity on the line, the other lines staying as and where they are;
    in any cart no line for [productId] is left after a removal; and for a
    cart with no line for [productId] the cart is returned as it is,
    whatever the quantity. *)
Theorem updateQuantity_cases (items : list CartLine) (productId : string) (newQuantity : Z) :
  (forall before l after,
     items = (before ++ l :: after)%list -> id (product l) = productId ->
     linesFor productId before = [] -> linesFor productId after = [] ->
     updateQuantity productId newQuantity items
     = if (newQuantity <=? 0)%Z then (before ++ after)%list
       else (before ++ {| product := product l; quantity := newQuantity |} :: after)%list)
  /\ ((newQuantity <= 0)%Z ->
      linesFor productId (updateQuantity productId newQuantity items) = [])
  /\ (linesFor productId items = [] ->
      updateQuantity productId newQuantity items = items).
Proof.
  unfold updateQuantity. repeat split.
  - intros before l after -> Hid Hb Ha.
    assert (Hl : lineFor productId l = true) by (unfold lineFor; now rewrite Hid, String.eqb_refl).
    destruct (newQuantity <=? 0)%Z.
    + now apply removeItem_single.
    + now rewrite (map_single (withQuantity newQuantity)).
  - intros Hq. apply Z.leb_le in Hq. rewrite Hq. apply removeItem_linesFor.
  - intros Hnone. destruct (newQuantity <=? 0)%Z.
    + now apply removeItem_untouched.
    + now apply (map_untouched (withQuantity newQuantity)).
Qed.

Lemma updateQuantity_cases_witness :
  updateQuantity "1" 5 [{| product := chipsProduct; quantity := 2 |};
                        {| product := colaProduct; quantity := 1 |}]
  = [{| product := chipsProduct; quantity := 2 |}; {| product := colaProduct; quantity := 5 |}]
  /\ updateQuantity "1" 0 [{| product := chipsProduct; quantity := 2 |};
                           {| product := colaProduct; quantity := 1 |}]
     = [{| product := chipsProduct; quantity := 2 |}]
  /\ updateQuantity "7" 3 [{| product := chipsProduct; quantity := 2 |}]
     = [{| product := chipsProduct; quantity := 2 |}].
Proof.
  split; [| split].
  - apply (proj1 (updateQuantity_cases _ "1" 5)
             [{| product := chipsProduct; quantity := 2 |}]
             {| product := colaProduct; quantity := 1 |} []); reflexivity.
  - apply (proj1 (updateQuantity_cases _ "1" 0)
             [{| product := chipsProduct; quantity := 2 |}]
             {| product := colaProduct; quantity := 1 |} []); reflexivity.
  - apply (proj2 (proj2 (updateQuantity_cases _ "7" 3))). reflexivity.
Defined.

(** *** The invariant of the data model: one line per product *)

Lemma linesFor_nil_forall productId items :
  linesFor productId items = [] <->
  forall x, In x items -> id (product x) <> productId.
Proof.
  unfold linesFor. induction items as [|l items IH]; simpl.
  - split; [intros _ x [] | reflexivity].
  - unfold lineFor at 1. destruct (String.eqb_spec (id (product l)) productId) as [E | E].
    + split; [discriminate | intros H; now elim (H l (or_introl eq_refl))].
    + rewrite IH. split.
      * intros H x [<- | Hx]; [exact E | now apply H].
      * intros H x Hx. apply H. now right.
Qed.

(** In a cart that respects the invariant, a line is the only one of its
    product. *)
Lemma one_line_split items l :
  OneLinePerProduct items -> In l items ->
  exists before after,
    items = (before ++ l :: after)%list
    /\ linesFor (id (product l)) before = [] /\ linesFor (id (product l)) after = [].
Proof.
  unfold OneLinePerProduct. intros Hnd Hin.
  destruct (in_split _ _ Hin) as [before [after ->]].
  exists before, after. split; [reflexivity |].
  rewrite map_app in Hnd. simpl in Hnd. apply NoDup_remove_2 in Hnd.
  split; apply linesFor_nil_forall; intros x Hx E; apply Hnd, in_or_app;
    [left | right]; rewrite <- E;
    exact (in_map (fun l => id (product l)) _ _ Hx).
Qed.

Lemma addItem_keeps_invariant p items :
  OneLinePerProduct items -> OneLinePerProduct (addItem p items).
Proof.
  unfold OneLinePerProduct, addItem. intros Hnd.
  destruct (existsb (lineFor (id p)) items) eqn:E.
  - rewrite map_map. erewrite map_ext; [exact Hnd |].
    intros l. now destruct (lineFor (id p) l).
  - rewrite map_app. simpl. apply NoDup_app; [exact Hnd | |].
    { repeat constructor. intros []. }
    intros x Hx [<- | []]. apply in_map_iff in Hx. destruct Hx as [l [Hl Hin]].
    apply (proj1 (linesFor_nil_forall (id p) items)) in Hin; [congruence |].
    now apply linesFor_nil_iff.
Qed.

Lemma NoDup_map_filter {A B} (f : A -> B) (g : A -> bool) l :
  NoDup (map f l) -> NoDup (map f (filter g l)).
Proof.
  induction l as [|x l IH]; simpl; [trivial |].
  intros H. apply NoDup_cons_iff in H. destruct H as [Hx Hl].
  destruct (g x); simpl; [| now apply IH].
  constructor; [| now apply IH].
  intros Hin. apply Hx. apply in_map_iff in Hin. destruct Hin as [y [Hy Hin]].
  apply filter_In in Hin. rewrite <- Hy. apply in_map. tauto.
Qed.

Lemma updateQuantity_keeps_invariant productId q items :
  OneLinePerProduct items -> OneLinePerProduct (updateQuantity productId q items).
Proof.
  unfold OneLinePerProduct, updateQuantity, removeItem. intros Hnd.
  destruct (q <=? 0)%Z.
  - now apply NoDup_map_filter.
  - rewrite map_map. erewrite map_ext; [exact Hnd |].
    intros l. now destruct (lineFor productId l).
Qed.

(** The scenario of the spec: cola twice gives one line of two, for 3.00. *)
Example cola_twice :
  Nat.iter 2 (addItem colaProduct) [] = [{| product := colaProduct; quantity := 2 |}]
  /\ (total (Nat.iter 2 (addItem colaProduct) []) == 3)%Q.
Proof. split; reflexivity. Qed.

End CartFacts.

(** ** The POS screen: a scan that resolves to no product *)
Module ScreenFacts.
Import JsString Catalog Cart Screen Scanner.

Lemma dropNth_last {A} (l : list A) (x : A) : dropNth (List.length l) (l ++ [x])%list = l.
Proof. induction l as [|a l IH]; simpl; [reflexivity | now rewrite IH]. Qed.

Lemma nth_error_last {A} (l : list A) (x : A) : nth_error (l ++ [x])%list (List.length l) = Some x.
Proof. induction l as [|a l IH]; simpl; [reflexivity | exact IH]. Qed.

Lemma filter_fresh_node (n : nat) (l : list Notification) (x : Notification) :
  node x = n -> (forall y, In y l -> node y <> n) ->
  filter (fun y => negb (Nat.eqb (node y) n)) (l ++ [x])%list = l.
Proof.
  intros Hx Hl. rewrite filter_app. simpl. rewrite Hx, Nat.eqb_refl. simpl.
  rewrite app_nil_r. induction l as [|a l IH]; simpl; [reflexivity |].
  destruct (Nat.eqb_spec (node a) n) as [E | E].
  - elim (Hl a); [now left | exact E].
  - simpl. f_equal. apply IH. intros y Hy. apply Hl. now right.
Qed.

(** C8: when the scanned barcode resolves to no product, handling the
    scan leaves the lines of the cart as they are, appends to the page one
    failure notice whose text ends with the barcode, and arms one timer of
    3000 ms whose expiry takes that notice off the page again; this is
    what happens whether the barcode comes from the camera or from the
    manual form. *)
Theorem handleBarcodeScanned_miss (s : Screen) (code : string) :
  findByBarcode (products s) code = None ->
  let s' := handleBarcodeScanned code s in
  let notice := {| node := nextNode s; className := failureClass;
                   textContent := "Product not found for barcode: " ++ code |} in
  items s' = items s
  /\ body s' = (body s ++ [notice])%list
  /\ timeouts s' = (timeouts s ++ [{| delay := 3000; removes := nextNode s |}])%list
  /\ ((forall n, In n (body s) -> node n <> nextNode s) ->
      exists s'', fireTimeout (List.length (timeouts s)) s' = Some s''
                  /\ body s'' = body s /\ timeouts s'' = timeouts s /\ items s'' = items s)
  /\ (forall w, host w = s -> items (host (handleScanSuccess code w)) = items s
                              /\ body (host (handleScanSuccess code w)) = (body s ++ [notice])%list).
Proof.
  intros Hmiss. unfold handleBarcodeScanned. rewrite Hmiss. simpl.
  repeat split.
  - intros Hfresh. unfold fireTimeout. simpl.
    rewrite nth_error_last. eexists. split; [reflexivity |]. simpl.
    rewrite dropNth_last. repeat split.
    now apply filter_fresh_node.
  - unfold handleScanSuccess, onClose, onHost. simpl. rewrite H.
    unfold handleBarcodeScanned. now rewrite Hmiss.
  - unfold handleScanSuccess, onClose, onHost. simpl. rewrite H.
    unfold handleBarcodeScanned. now rewrite Hmiss.
Qed.

Lemma handleBarcodeScanned_miss_witness :
  let s := emptyScreen [colaProduct] in
  let s' := handleBarcodeScanned "222" s in
  let notice := {| node := 0; className := failureClass;
                   textContent := "Product not found for barcode: 222" |} in
  items s' = []
  /\ body s' = [notice]
  /\ timeouts s' = [{| delay := 3000; removes := 0 |}]
  /\ ((forall n, In n (body s) -> node n <> nextNode s) ->
      exists s'', fireTimeout 0 s' = Some s''
                  /\ body s'' = [] /\ timeouts s'' = [] /\ items s'' = [])
  /\ (forall w, host w = s -> items (host (handleScanSuccess "222" w)) = []
                              /\ body (host (handleScanSuccess "222" w)) = [notice]).
Proof.
  exact (handleBarcodeScanned_miss (emptyScreen [colaProduct]) "222" eq_refl).
Defined.

(** Completing the checkout empties the cart and touches nothing else. *)
Lemma handleCheckoutComplete_clears (s : Screen) :
  items (handleCheckoutComplete s) = []
  /\ products (handleCheckoutComplete s) = products s
  /\ body (handleCheckoutComplete s) = body s.
Proof. repeat split. Qed.

End ScreenFacts.

(** ** The barcode scanner *)
Module ScannerFacts.
Import JsString Catalog Cart Screen Scanner.

(** *** What a render leaves alone *)

Lemma updateNth_map {A B} (g : A -> B) (f : A -> A) k l :
  (forall x, g (f x) = g x) -> map g (updateNth k f l) = map g l.
Proof.
  intros H. revert k. induction l as [|x l IH]; intros [|k]; simpl;
    rewrite ?H, ?IH; reflexivity.
Qed.

Lemma existsb_snoc {A} (p : A -> bool) l x : existsb p (l ++ [x])%list = existsb p l || p x.
Proof. rewrite existsb_app. simpl. now rewrite orb_false_r. Qed.

Lemma invoke_startCalled h c w :
  (forall cameraId, c <> CallStart cameraId) ->
  map startCalled (instances (invoke h c w)) = map startCalled (instances w).
Proof.
  intros Hc. unfold invoke. simpl. apply updateNth_map. intros i.
  unfold startCalled. simpl. rewrite existsb_snoc.
  destruct c; [now elim (Hc cameraId) | |]; apply orb_false_r.
Qed.

(** The cleanup calls no [start] and creates no capture object. *)
Lemma cleanup_startCalled seen w :
  map startCalled (instances (cleanup seen w)) = map startCalled (instances w).
Proof.
  unfold cleanup, cleanup_tail.
  destruct (html5QrCodeRef w) as [h|], seen, (scannerRef w) as [r|]; simpl;
    try reflexivity;
    try (apply (invoke_startCalled _ CallStop); discriminate);
    apply (invoke_startCalled _ CallClear); discriminate.
Qed.

Lemma cleanup_tasks seen w :
  tasks (cleanup seen w) = tasks w
  \/ exists h, tasks (cleanup seen w) = (tasks w ++ [AwaitStop h])%list.
Proof.
  unfold cleanup, cleanup_tail.
  destruct (html5QrCodeRef w) as [h|], seen, (scannerRef w) as [r|]; simpl;
    try (now left); right; now exists h.
Qed.

Lemma cleanup_frame seen w :
  host (cleanup seen w) = host w
  /\ scannerMode (st (cleanup seen w)) = scannerMode (st w)
  /\ manualBarcode (st (cleanup seen w)) = manualBarcode (st w)
  /\ error (st (cleanup seen w)) = error (st w)
  /\ selectedCamera (st (cleanup seen w)) = selectedCamera (st w)
  /\ mounted (cleanup seen w) = mounted w.
Proof.
  unfold cleanup, cleanup_tail.
  destruct (html5QrCodeRef w) as [h|], seen, (scannerRef w) as [r|]; simpl; tauto.
Qed.

(** In manual mode a render starts nothing: it can only run the cleanup
    of the installed effect. *)
Lemma render_input w :
  scannerMode (st w) = input ->
  host (render w) = host w
  /\ scannerMode (st (render w)) = input
  /\ manualBarcode (st (render w)) = manualBarcode (st w)
  /\ error (st (render w)) = error (st w)
  /\ map startCalled (instances (render w)) = map startCalled (instances w)
  /\ (tasks (render w) = tasks w
      \/ exists h, tasks (render w) = (tasks w ++ [AwaitStop h])%list).
Proof.
  intros Hmode. unfold render.
  destruct (mounted w && depsChanged w); [| rewrite Hmode; tauto].
  unfold runEffect. rewrite Hmode, andb_false_r. simpl.
  destruct (cleanup_frame (seenScanning (effect w)) w) as [Hh [Hm [Hb [He _]]]].
  rewrite Hh, Hm, Hb, He, Hmode.
  repeat split.
  - apply cleanup_startCalled.
  - apply cleanup_tasks.
Qed.

Lemma takeTask_some (p : Task -> bool) l :
  existsb p l = true ->
  exists t rest, takeTask p l = Some (t, rest) /\ p t = true
                 /\ forall x, In x rest -> In x l.
Proof.
  induction l as [|a l IH]; simpl; [discriminate |].
  destruct (p a) eqn:E; simpl.
  - intros _. exists a, l. repeat split; [exact E | intros x Hx; now right].
  - intros H. destruct (IH H) as [t [rest [Ht [Hp Hin]]]].
    rewrite Ht. exists t, (a :: rest). repeat split; [exact Hp |].
    intros x [<- | Hx]; [now left | right; now apply Hin].
Qed.

(** *** Enumeration that finds no camera *)

(** C9: when a pending camera enumeration resolves with no device, the
    event is handled; the scanner is then in manual mode with the "no
    cameras" message as its error, which an open scanner displays together
    with the manual form; no capture object was created or started and no
    enumeration or start is newly pending; and the manual form works: a
    typed barcode that is not blank, once submitted, reaches the screen's
    scan handler in trimmed form. *)
Theorem no_cameras_goes_manual (w : World) :
  existsb isAwaitGetCameras (tasks w) = true ->
  exists w',
    step (CamerasResolved []) w = Some w'
    /\ scannerMode (st w') = input
    /\ error (st w') = noCamerasMessage
    /\ (isOpen w = true ->
        shownError w' = Some noCamerasMessage /\ manualFormShown w' = true)
    /\ map startCalled (instances w') = map startCalled (instances w)
    /\ (forall t, In t (tasks w') -> In t (tasks w) \/ exists h, t = AwaitStop h)
    /\ (isOpen w = true ->
        forall text, truthy (trim text) = true ->
        exists w'',
          run [TypeBarcode text; SubmitManual] w' = Some w''
          /\ host w'' = setShowBarcodeScanner false
                          (handleBarcodeScanned (trim text) (host w'))).
Proof.
  intros Hpending.
  destruct (takeTask_some _ _ Hpending) as [t [rest [Htake [Ht Hrest]]]].
  destruct t as [selected | |]; try discriminate. clear Ht.
  unfold step, handle. rewrite Htake.
  set (w1 := initializeScanner_cameras selected [] (setTasks rest w)).
  assert (Hmode1 : scannerMode (st w1) = input) by reflexivity.
  destruct (render_input w1 Hmode1) as [Hhost [Hmode [Hman [Herr [Hstart Htasks]]]]].
  assert (Hopen : isOpen (render w1) = isOpen w) by (unfold isOpen; now rewrite Hhost).
  exists (render w1). split; [reflexivity |].
  split; [exact Hmode |].
  split; [now rewrite Herr |].
  split.
  { intros Ho. unfold shownError, manualFormShown.
    now rewrite Hopen, Ho, Herr, Hmode. }
  split; [exact Hstart |].
  split.
  { intros t Ht. destruct Htasks as [E | [h E]]; rewrite E in Ht.
    - left. now apply Hrest.
    - apply in_app_or in Ht. destruct Ht as [Ht | [<- | []]].
      + left. now apply Hrest.
      + right. now exists h. }
  intros Ho text Htext.
  set (w2 := setManualBarcode text (render w1)).
  assert (Hmode2 : scannerMode (st w2) = input) by exact Hmode.
  destruct (render_input w2 Hmode2) as [Hhost2 [Hmode2' [Hman2 _]]].
  set (w3 := handleManualSubmit (render w2)).
  assert (Hw3 : w3 = setManualBarcode "" (handleScanSuccess (trim text) (render w2))).
  { unfold w3, handleManualSubmit. rewrite Hman2. simpl manualBarcode. now rewrite Htext. }
  assert (Hmode3 : scannerMode (st w3) = input) by (rewrite Hw3; exact Hmode2').
  destruct (render_input w3 Hmode3) as [Hhost3 _].
  exists (render w3). split.
  - unfold run, step, handle. rewrite Hopen, Ho, Hmode. simpl.
    fold w2. unfold isOpen. rewrite Hhost2, Hmode2'. simpl.
    fold (isOpen (render w1)). rewrite Hopen, Ho. reflexivity.
  - rewrite Hhost3, Hw3. simpl. now rewrite Hhost2.
Qed.

Lemma no_cameras_goes_manual_witness :
  exists w',
    step (CamerasResolved []) openedScanner = Some w'
    /\ scannerMode (st w') = input
    /\ shownError w' = Some noCamerasMessage.
Proof.
  destruct (no_cameras_goes_manual openedScanner eq_refl)
    as [w' [Hstep [Hmode [_ [Hshown _]]]]].
  exists w'. split; [exact Hstep |]. split; [exact Hmode |].
  exact (proj1 (Hshown eq_refl)).
Defined.

(** *** Releasing the capture session *)

(** With no session open, [cleanup] changes nothing, whatever
    [isScanning] its caller saw. *)
Lemma cleanup_idle (seen : bool) (w : World) : noSession w -> cleanup seen w = w.
Proof.
  destruct w as [h s sr hr m e i t c]. destruct s as [mode text scan err cams sel].
  unfold noSession. simpl. intros [-> [-> ->]]. reflexivity.
Qed.

(** A release that runs to its end leaves no session referenced. *)
Lemma cleanup_finish_noSession (w : World) : noSession (cleanup_finish w).
Proof. repeat split. Qed.

(** The explicit close button asks the running capture object to stop. *)
Example close_button_stops :
  option_map instances
    (run [ClickScan; CamerasResolved [frontCamera]; StartResolved 0; ClickClose] closedScanner)
  = Some [{| calls := [CallStart "cam0"; CallStop]; scanning := false |}].
Proof. reflexivity. Qed.

(** An effect installed while [isScanning] was already true releases its
    session when the scanner closes. *)
Example later_session_released :
  option_map instances
    (run [ClickScan; CamerasResolved [frontCamera; backCamera]; StartResolved 0;
          SelectCamera "cam1"; CamerasResolved [frontCamera; backCamera]; StartResolved 1;
          Decoded 1 "111"; StopResolved 1] closedScanner)
  = Some [{| calls := [CallStart "cam0"]; scanning := true |};
          {| calls := [CallStart "cam1"; CallStop; CallClear]; scanning := false |}].
Proof. reflexivity. Qed.

(** C7: the release is skipped on exit paths.  The scanner is opened, one
    camera is found, the capture starts, and then either a barcode is
    decoded, or the user switches to manual mode, or the component is
    unmounted.  Each time the cleanup of the effect runs with the
    [isScanning = false] of the render that installed it: the ref is
    dropped and nothing is pending, but the capture object was asked
    neither to stop nor to clear, and its decode loop still runs.
    Selecting another camera then starts a second session beside the
    first one. *)
Theorem release_skipped :
  let started := [ClickScan; CamerasResolved [frontCamera]; StartResolved 0] in
  let leaked := [{| calls := [CallStart "cam0"]; scanning := true |}] in
  (exists w, run (started ++ [Decoded 0 "111"])%list closedScanner = Some w
             /\ isOpen w = false /\ html5QrCodeRef w = None /\ tasks w = []
             /\ instances w = leaked /\ existsb released (instances w) = false)
  /\ (exists w, run (started ++ [ClickMode input])%list closedScanner = Some w
                /\ scannerMode (st w) = input /\ html5QrCodeRef w = None /\ tasks w = []
                /\ instances w = leaked)
  /\ (exists w, run (started ++ [Unmount])%list closedScanner = Some w
                /\ mounted w = false /\ html5QrCodeRef w = None /\ tasks w = []
                /\ instances w = leaked)
  /\ (exists w, run [ClickScan; CamerasResolved [frontCamera; backCamera]; StartResolved 0;
                     SelectCamera "cam1"; CamerasResolved [frontCamera; backCamera];
                     StartResolved 1] closedScanner = Some w
                /\ instances w = [{| calls := [CallStart "cam0"]; scanning := true |};
                                  {| calls := [CallStart "cam1"]; scanning := true |}]).
Proof.
  cbv zeta. repeat split; eexists; (split; [vm_compute; reflexivity |]); repeat split.
Qed.

End ScannerFacts.

(** ** More on the catalog: how search, categories and lookup combine *)
Module CatalogMore.
Import JsString JsStringFacts Catalog CatalogFacts.

(** Containment up to letter case is transitive. *)
Lemma containsIgnoringCase_trans s t' t :
  containsIgnoringCase s t' -> containsIgnoringCase t' t -> containsIgnoringCase s t.
Proof.
  rewrite !containsIgnoringCase_folded.
  intros [p [m [q [-> Hm]]]] [p' [m' [q' [-> Hm']]]].
  rewrite !toLowerCase_app in Hm.
  destruct (toLowerCase_split _ _ _ Hm) as [a [r [-> [Ha Hr]]]].
  destruct (toLowerCase_split _ _ _ Hr) as [b [c [-> [Hb Hc]]]].
  exists (p ++ a), b, (c ++ q). split.
  - now rewrite !append_assoc.
  - now rewrite Hb.
Qed.

Lemma filter_narrow {A} (f g : A -> bool) l :
  (forall x, g x = true -> f x = true) -> filter g l = filter g (filter f l).
Proof.
  intros H. induction l as [|x l IH]; simpl; [reflexivity |].
  destruct (g x) eqn:Eg.
  - rewrite (H x Eg). simpl. now rewrite Eg, IH.
  - destruct (f x); simpl; [now rewrite Eg |]; exact IH.
Qed.

(** Refining the search term narrows the cards: when the new term
    contains the old one up to letter case, the new cards are the new
    filter applied to the old cards, so each of them was already shown. *)
Theorem search_narrows (products : list Product) (term term' category : string) :
  containsIgnoringCase term' term ->
  filteredProducts products term' category
  = filteredProducts (filteredProducts products term category) term' category
  /\ (forall p, In p (filteredProducts products term' category) ->
                In p (filteredProducts products term category))
  /\ (List.length (filteredProducts products term' category)
      <= List.length (filteredProducts products term category))%nat.
Proof.
  intros Hterm.
  assert (Himp : forall p, matchesFilter term' category p = true ->
                           matchesFilter term category p = true).
  { intros p Hp. apply matchesFilter_iff in Hp. apply matchesFilter_iff.
    destruct Hp as [Hname Hcat]. split; [| exact Hcat].
    exact (containsIgnoringCase_trans _ _ _ Hname Hterm). }
  assert (Heq : filteredProducts products term' category
                = filteredProducts (filteredProducts products term category) term' category).
  { unfold filteredProducts. now apply filter_narrow. }
  split; [exact Heq |]. split.
  - intros p Hp. rewrite Heq in Hp. unfold filteredProducts in Hp at 1.
    apply filter_In in Hp. tauto.
  - rewrite Heq. unfold filteredProducts at 1. apply filter_length_le.
Qed.

Lemma search_narrows_witness :
  filteredProducts [colaProduct; chipsProduct; cloneProduct] "cola z" "all"
  = filteredProducts (filteredProducts [colaProduct; chipsProduct; cloneProduct] "COL" "all")
      "cola z" "all".
Proof.
  apply (search_narrows [colaProduct; chipsProduct; cloneProduct] "COL" "cola z" "all").
  exists "", "col", "a z". split; reflexivity.
Defined.

Lemma matchesFilter_split term category p :
  matchesFilter term category p
  = matchesFilter term "all" p && matchesFilter "" category p.
Proof.
  unfold matchesFilter. cbn [toLowerCase]. rewrite includes_empty.
  change (String.eqb "all" "all") with true. cbn [orb andb].
  now rewrite andb_true_r.
Qed.

(** The search box and the category menu filter independently: using both
    gives what either gives when applied to the cards of the other used
    alone. *)
Theorem filters_compose (products : list Product) (term category : string) :
  filteredProducts products term category
  = filteredProducts (filteredProducts products term "all") "" category
  /\ filteredProducts products term category
     = filteredProducts (filteredProducts products "" category) term "all".
Proof.
  unfold filteredProducts. rewrite !filter_filter. split; apply filter_ext; intros p.
  - apply matchesFilter_split.
  - rewrite andb_comm. apply matchesFilter_split.
Qed.

Lemma matchesFilter_own_category p : matchesFilter "" (category p) p = true.
Proof.
  unfold matchesFilter. cbn [toLowerCase]. rewrite includes_empty, String.eqb_refl.
  now rewrite orb_true_r.
Qed.

Lemma categories_In products c :
  In c (categories products) <-> c = "all" \/ exists p, In p products /\ category p = c.
Proof.
  unfold categories. rewrite Set_from_firstSeen. simpl.
  rewrite firstSeen_In, in_map_iff.
  split; (intros [H | [p [H1 H2]]]; [left; congruence | right; exists p; tauto]).
Qed.

Lemma filteredProducts_unfiltered products : filteredProducts products "" "all" = products.
Proof.
  unfold filteredProducts. induction products as [|p l IH]; simpl; [reflexivity |].
  rewrite (matchesFilter_split "" "all" p).
  replace (matchesFilter "" "all" p) with true; [simpl; now rewrite IH |].
  unfold matchesFilter. cbn [toLowerCase]. now rewrite includes_empty.
Qed.

(** No option of the category menu is a dead end: with an empty search
    box, an offered label shows no card only when there is no product at
    all; and every product is on the cards of the label of its own
    category, which is offered. *)
Theorem every_option_shows_cards (products : list Product) (c : string) :
  In c (categories products) ->
  (filteredProducts products "" c = [] <-> products = [])
  /\ (forall p, In p products ->
        In (category p) (categories products)
        /\ In p (filteredProducts products "" (category p))).
Proof.
  intros Hc.
  assert (Hown : forall p, In p products ->
            In (category p) (categories products)
            /\ In p (filteredProducts products "" (category p))).
  { intros p Hp. split.
    - apply categories_In. right. now exists p.
    - apply filter_In. split; [exact Hp | apply matchesFilter_own_category]. }
  split; [| exact Hown]. split.
  - intros Hempty. apply categories_In in Hc. destruct Hc as [-> | [p [Hp <-]]].
    + now rewrite filteredProducts_unfiltered in Hempty.
    + destruct (Hown p Hp) as [_ Hin]. rewrite Hempty in Hin. destruct Hin.
  - intros ->. reflexivity.
Qed.

Lemma every_option_shows_cards_witness :
  filteredProducts [colaProduct; chipsProduct] "" "snacks" = [] <->
  [colaProduct; chipsProduct] = [].
Proof.
  apply (every_option_shows_cards [colaProduct; chipsProduct] "snacks").
  vm_compute. tauto.
Defined.

(** A product that alone carries its barcode is the one a scan of that
    barcode finds. *)
Theorem findByBarcode_own (products : list Product) (p : Product) (code : string) :
  In p products -> barcode p = Some code ->
  (forall q, In q products -> barcode q = Some code -> q = p) ->
  findByBarcode products code = Some p.
Proof.
  intros Hin Hcode Honly.
  destruct (findByBarcode products code) as [q|] eqn:E.
  - unfold findByBarcode in E. apply Array_find_Some in E.
    destruct E as [l1 [l2 [Hsplit [Hq _]]]]. apply barcodeIs_iff in Hq.
    f_equal. apply Honly; [| exact Hq].
    rewrite Hsplit. apply in_or_app. right. now left.
  - unfold findByBarcode in E. rewrite Array_find_None in E.
    specialize (E p Hin). apply barcodeIs_iff in Hcode. congruence.
Qed.

Lemma findByBarcode_own_witness :
  findByBarcode [chipsProduct; colaProduct] "111" = Some colaProduct.
Proof.
  apply (findByBarcode_own [chipsProduct; colaProduct] colaProduct "111").
  - right. now left.
  - reflexivity.
  - intros q [<- | [<- | []]] H; [discriminate H | reflexivity].
Defined.

End CatalogMore.

(** ** The POS screen as a whole *)
Module PosFacts.
Import JsString Catalog CatalogFacts Cart CartFacts Screen Pos.

(** *** Lists with one element dropped *)

Lemma dropNth_map {A B} (f : A -> B) k l : map f (dropNth k l) = dropNth k (map f l).
Proof.
  revert k. induction l as [|x l IH]; intros [|k]; simpl; try reflexivity.
  now rewrite IH.
Qed.

Lemma dropNth_In {A} k (l : list A) x : In x (dropNth k l) -> In x l.
Proof.
  revert k. induction l as [|a l IH]; intros [|k]; simpl; try tauto.
  intros [H | H]; [now left | right; now apply (IH k)].
Qed.

Lemma dropNth_NoDup {A} k (l : list A) : NoDup l -> NoDup (dropNth k l).
Proof.
  revert k. induction l as [|a l IH]; intros [|k] H; simpl; try assumption.
  - now inversion H.
  - inversion H; subst. constructor; [| now apply IH].
    intros Hin. apply dropNth_In in Hin. contradiction.
Qed.

Lemma filter_keeps_all {A} (f : A -> bool) l :
  (forall x, In x l -> f x = true) -> filter f l = l.
Proof.
  induction l as [|a l IH]; simpl; intros H; [reflexivity |].
  rewrite (H a (or_introl eq_refl)). f_equal. apply IH. intros x Hx. apply H. now right.
Qed.

(** Among distinct nodes, taking out the node at position [k] is dropping
    position [k]. *)
Lemma filter_node_dropNth (l : list Notification) k n :
  NoDup (map node l) -> nth_error (map node l) k = Some n ->
  filter (fun y => negb (Nat.eqb (node y) n)) l = dropNth k l.
Proof.
  revert k. induction l as [|a l IH]; intros [|k] Hnd Hk; simpl in *; try discriminate.
  - injection Hk as <-. rewrite Nat.eqb_refl. simpl.
    apply filter_keeps_all. intros x Hx.
    destruct (Nat.eqb_spec (node x) (node a)) as [E | E]; [| reflexivity].
    inversion Hnd; subst. exfalso. apply H1. rewrite <- E. now apply in_map.
  - inversion Hnd; subst.
    destruct (Nat.eqb_spec (node a) n) as [E | E].
    + exfalso. apply H1. rewrite E. eapply nth_error_In. exact Hk.
    + simpl. f_equal. now apply IH.
Qed.

(** *** The notices and their timers *)

Lemma notify_NoticesOk cls txt s : NoticesOk s -> NoticesOk (notify cls txt 3000 s).
Proof.
  intros [Hmap [Hnd [Hlt Hdelay]]]. unfold NoticesOk, notify. simpl.
  rewrite !map_app. simpl. repeat split.
  - now rewrite Hmap.
  - apply NoDup_app; [exact Hnd | repeat constructor; intros [] |].
    intros n Hn [<- | []]. apply in_map_iff in Hn. destruct Hn as [x [Hx Hin]].
    specialize (Hlt x Hin). lia.
  - intros n Hn. apply in_app_or in Hn. destruct Hn as [Hn | [<- | []]].
    + specialize (Hlt n Hn). lia.
    + simpl. lia.
  - intros t Ht. apply in_app_or in Ht. destruct Ht as [Ht | [<- | []]].
    + now apply Hdelay.
    + reflexivity.
Qed.

Lemma handleBarcodeScanned_NoticesOk code s :
  NoticesOk s -> NoticesOk (handleBarcodeScanned code s).
Proof.
  intros H. unfold handleBarcodeScanned.
  destruct (findByBarcode (products s) code) as [p|].
  - apply (notify_NoticesOk successClass _ (setShowBarcodeScanner false (setItems (addItem p) s))).
    exact H.
  - exact (notify_NoticesOk failureClass _ s H).
Qed.

Lemma nth_error_dropNth_NoDup {A} (l : list A) k x :
  NoDup l -> nth_error l k = Some x -> ~ In x (dropNth k l).
Proof.
  revert k. induction l as [|a l IH]; intros [|k] Hnd Hk; simpl in *; try discriminate.
  - injection Hk as ->. now inversion Hnd.
  - inversion Hnd; subst. intros [-> | Hin].
    + apply H1. eapply nth_error_In. exact Hk.
    + now apply (IH k).
Qed.

Lemma fireTimeout_at (s : Screen) (k : nat) (n : Notification) :
  NoticesOk s -> nth_error (body s) k = Some n ->
  exists s',
    fireTimeout k s = Some s'
    /\ body s' = dropNth k (body s)
    /\ timeouts s' = dropNth k (timeouts s)
    /\ items s' = items s /\ products s' = products s
    /\ ~ In n (body s')
    /\ NoticesOk s'.
Proof.
  intros [Hmap [Hnd [Hlt Hdelay]]] Hk.
  assert (Hnode : nth_error (map node (body s)) k = Some (node n))
    by (now apply map_nth_error).
  assert (Ht : exists t, nth_error (timeouts s) k = Some t /\ removes t = node n).
  { rewrite Hmap in Hnode. rewrite nth_error_map in Hnode.
    destruct (nth_error (timeouts s) k) as [t|]; [| discriminate].
    exists t. split; [reflexivity | now injection Hnode]. }
  destruct Ht as [t [Ht Hrem]].
  assert (Hbody : filter (fun y => negb (Nat.eqb (node y) (removes t))) (body s)
                  = dropNth k (body s)).
  { rewrite Hrem. now apply filter_node_dropNth. }
  unfold fireTimeout. rewrite Ht.
  exists (removeChild (removes t)
            {| products := products s; items := items s;
               showBarcodeScanner := showBarcodeScanner s; body := body s;
               timeouts := dropNth k (timeouts s); nextNode := nextNode s |}).
  split; [reflexivity |]. unfold removeChild. cbn [body timeouts items products nextNode].
  rewrite Hbody.
  split; [reflexivity |]. split; [reflexivity |].
  split; [reflexivity |]. split; [reflexivity |].
  split.
  - intros Hin. apply (in_map node) in Hin. rewrite dropNth_map in Hin.
    exact (nth_error_dropNth_NoDup _ _ _ Hnd Hnode Hin).
  - unfold NoticesOk. cbn [body timeouts nextNode]. split; [| split; [| split]].
    + now rewrite !dropNth_map, Hmap.
    + rewrite dropNth_map. now apply dropNth_NoDup.
    + intros x Hx. apply Hlt. now apply dropNth_In in Hx.
    + intros x Hx. apply Hdelay. now apply dropNth_In in Hx.
Qed.

Lemma fireTimeout_NoticesOk k s s' :
  NoticesOk s -> fireTimeout k s = Some s' ->
  NoticesOk s' /\ items s' = items s /\ products s' = products s
  /\ showBarcodeScanner s' = showBarcodeScanner s.
Proof.
  intros Hok Hfire.
  assert (Hshow : showBarcodeScanner s' = showBarcodeScanner s).
  { unfold fireTimeout in Hfire. destruct (nth_error (timeouts s) k); [| discriminate].
    injection Hfire as <-. reflexivity. }
  destruct (nth_error (body s) k) as [n|] eqn:Hn.
  - destruct (fireTimeout_at s k n Hok Hn) as [s2 [H2 H]].
    rewrite Hfire in H2. injection H2 as E. subst s2. tauto.
  - exfalso. unfold fireTimeout in Hfire.
    destruct Hok as [Hmap _].
    assert (Hnone : nth_error (map removes (timeouts s)) k = None).
    { rewrite <- Hmap, nth_error_map, Hn. reflexivity. }
    rewrite nth_error_map in Hnone.
    destruct (nth_error (timeouts s) k); discriminate.
Qed.

(** When the notices follow the timers, the expiry of the timer at
    position [k] takes the notice at position [k] off the page, and only
    that one; the other notices and timers, the cart and the catalog stay
    as they are, and the notices still follow the timers. *)
Theorem expiry_removes_its_notice (s : Screen) (k : nat) (n : Notification) :
  NoticesOk s -> nth_error (body s) k = Some n ->
  exists s',
    fireTimeout k s = Some s'
    /\ body s' = dropNth k (body s)
    /\ timeouts s' = dropNth k (timeouts s)
    /\ items s' = items s /\ products s' = products s
    /\ ~ In n (body s')
    /\ NoticesOk s'.
Proof. exact (fireTimeout_at s k n). Qed.

Lemma expiry_removes_its_notice_witness :
  exists s',
    fireTimeout 0 (handleBarcodeScanned "222" (emptyScreen [colaProduct])) = Some s'
    /\ body s' = [].
Proof.
  destruct (expiry_removes_its_notice
              (handleBarcodeScanned "222" (emptyScreen [colaProduct])) 0
              {| node := 0; className := failureClass;
                 textContent := "Product not found for barcode: 222" |})
    as [s' [Hfire [Hbody _]]].
  - apply handleBarcodeScanned_NoticesOk. repeat split; simpl; try constructor; intros ? [].
  - reflexivity.
  - exists s'. split; [exact Hfire | exact Hbody].
Defined.

(** *** The cart under the controls of the screen *)

Lemma addItem_CartOk catalog p l :
  In p catalog -> CartOk catalog l -> CartOk catalog (addItem p l).
Proof.
  intros Hp [Hone Hall]. split; [now apply addItem_keeps_invariant |].
  unfold addItem. destruct (existsb (lineFor (id p)) l).
  - intros x Hx. apply in_map_iff in Hx. destruct Hx as [y [<- Hy]].
    destruct (Hall y Hy) as [Hcat Hq].
    destruct (lineFor (id p) y); simpl; split; try assumption; lia.
  - intros x Hx. apply in_app_or in Hx. destruct Hx as [Hx | [<- | []]].
    + now apply Hall.
    + simpl. split; [exact Hp | lia].
Qed.

Lemma removeItem_CartOk catalog productId l :
  CartOk catalog l -> CartOk catalog (removeItem productId l).
Proof.
  intros [Hone Hall]. split.
  - unfold OneLinePerProduct, removeItem. now apply NoDup_map_filter.
  - intros x Hx. apply filter_In in Hx. now apply Hall.
Qed.

Lemma updateQuantity_CartOk catalog productId q l :
  CartOk catalog l -> CartOk catalog (updateQuantity productId q l).
Proof.
  intros Hok. pose proof Hok as [Hone Hall].
  split; [now apply updateQuantity_keeps_invariant |].
  unfold updateQuantity. destruct (Z.leb_spec q 0).
  - apply (removeItem_CartOk catalog productId l Hok).
  - intros x Hx. apply in_map_iff in Hx. destruct Hx as [y [<- Hy]].
    destruct (Hall y Hy) as [Hcat Hq].
    destruct (lineFor productId y); simpl; split; try assumption; lia.
Qed.

Lemma findByBarcode_In products code p :
  findByBarcode products code = Some p -> In p products.
Proof.
  unfold findByBarcode. intros H. apply Array_find_Some in H.
  destruct H as [l1 [l2 [-> _]]]. apply in_or_app. right. now left.
Qed.

Lemma handleBarcodeScanned_cart code s :
  CartOk (products s) (items s) ->
  CartOk (products s) (items (handleBarcodeScanned code s))
  /\ products (handleBarcodeScanned code s) = products s.
Proof.
  intros Hok. unfold handleBarcodeScanned.
  destruct (findByBarcode (products s) code) as [p|] eqn:E; simpl; split;
    try reflexivity; try assumption.
  apply addItem_CartOk; [now apply findByBarcode_In in E | exact Hok].
Qed.

Lemma posStep_Kept catalog e p p' :
  Kept catalog p -> posStep e p = Some p' -> Kept catalog p'.
Proof.
  intros [Hprod [Hcart [Hnot Hsel]]] Hstep. unfold Kept.
  destruct e as [text|k|k|k|k|k| | |code| | | | | |k]; simpl in Hstep.
  - injection Hstep as <-. simpl. tauto.
  - unfold categoryOptions in Hstep. rewrite Hprod in Hstep.
    destruct (nth_error (categories catalog) k) as [c|] eqn:E; [| discriminate].
    injection Hstep as <-. simpl.
    split; [| split; [| split]]; try assumption.
    exact (nth_error_In (categories catalog) k E).
  - destruct (nth_error (cards p) k) as [x|] eqn:E; [| discriminate].
    injection Hstep as <-. simpl.
    split; [| split; [| split]]; try assumption.
    apply addItem_CartOk; [| exact Hcart].
    apply nth_error_In in E. unfold cards, filteredProducts in E.
    apply filter_In in E. rewrite <- Hprod. tauto.
  - destruct (nth_error (items (screen p)) k) as [x|]; [| discriminate].
    injection Hstep as <-. simpl.
    split; [| split; [| split]]; try assumption. now apply updateQuantity_CartOk.
  - destruct (nth_error (items (screen p)) k) as [x|]; [| discriminate].
    injection Hstep as <-. simpl.
    split; [| split; [| split]]; try assumption. now apply updateQuantity_CartOk.
  - destruct (nth_error (items (screen p)) k) as [x|]; [| discriminate].
    injection Hstep as <-. simpl.
    split; [| split; [| split]]; try assumption. now apply removeItem_CartOk.
  - injection Hstep as <-. simpl. tauto.
  - injection Hstep as <-. simpl. tauto.
  - injection Hstep as <-. simpl.
    rewrite <- Hprod in Hcart. destruct (handleBarcodeScanned_cart code _ Hcart) as [Hc Hp].
    rewrite Hp. split; [exact Hprod |]. rewrite <- Hprod.
    split; [exact Hc |]. split; [now apply handleBarcodeScanned_NoticesOk |].
    now rewrite Hprod.
  - injection Hstep as <-. simpl. tauto.
  - injection Hstep as <-. simpl. tauto.
  - destruct (checkoutButtonShown p); [| discriminate]. injection Hstep as <-. simpl. tauto.
  - injection Hstep as <-. simpl. tauto.
  - injection Hstep as <-. simpl.
    split; [| split; [| split]]; try assumption.
    split; [constructor | intros x []].
  - destruct (fireTimeout k (screen p)) as [s|] eqn:E; [| discriminate].
    injection Hstep as <-. simpl.
    destruct (fireTimeout_NoticesOk _ _ _ Hnot E) as [Hn [Hi [Hp _]]].
    rewrite Hi, Hp. tauto.
Qed.

Lemma mounted_Kept stored : Kept (loadProducts stored) (mounted stored).
Proof.
  unfold Kept, mounted, CartOk, NoticesOk, OneLinePerProduct. simpl.
  split; [reflexivity |]. split; [split; [constructor | intros x []] |].
  split; [| now left].
  split; [reflexivity |]. split; [constructor |]. split; intros x [].
Qed.

Lemma posRun_Kept catalog es : forall p p',
  Kept catalog p -> posRun es p = Some p' -> Kept catalog p'.
Proof.
  induction es as [|e es IH]; intros p p' Hk Hrun; simpl in Hrun.
  - now injection Hrun as <-.
  - destruct (posStep e p) as [p1|] eqn:E; [| discriminate].
    exact (IH p1 p' (posStep_Kept _ _ _ _ Hk E) Hrun).
Qed.

(** Whatever is clicked, typed, scanned or expires after the screen was
    mounted, the cart holds only products of the loaded catalog, one line
    per product, each with a quantity of at least 1, and the catalog is the
    loaded one. *)
Theorem cart_always_ok (stored : option (list Product)) (es : list PosEvent) (p : Pos) :
  posRun es (mounted stored) = Some p ->
  products (screen p) = loadProducts stored
  /\ OneLinePerProduct (items (screen p))
  /\ (forall x, In x (items (screen p)) ->
        In (product x) (loadProducts stored) /\ (1 <= quantity x)%Z).
Proof.
  intros Hrun.
  destruct (posRun_Kept _ es _ _ (mounted_Kept stored) Hrun) as [Hp [[Hone Hall] _]].
  tauto.
Qed.

Lemma cart_always_ok_witness :
  OneLinePerProduct
    [{| product := colaProduct; quantity := 2 |}; {| product := chipsProduct; quantity := 1 |}].
Proof.
  apply (cart_always_ok (Some [colaProduct; chipsProduct])
           [ScannerScan "111"; TypeSearch "chi"; ClickProduct 0; ClickPlus 1;
            ClickMinus 1; ScannerScan "111"; ScannerScan "nothing"]
           {| screen :=
                {| products := [colaProduct; chipsProduct];
                   items := [{| product := colaProduct; quantity := 2 |};
                             {| product := chipsProduct; quantity := 1 |}];
                   showBarcodeScanner := false;
                   body := [{| node := 0; className := successClass;
                               textContent := "Added Cola to cart" |};
                            {| node := 1; className := successClass;
                               textContent := "Added Cola to cart" |};
                            {| node := 2; className := failureClass;
                               textContent := "Product not found for barcode: nothing" |}];
                   timeouts := [{| delay := 3000; removes := 0 |};
                                {| delay := 3000; removes := 1 |};
                                {| delay := 3000; removes := 2 |}];
                   nextNode := 3 |};
              searchTerm := "chi"; selectedCategory := "all";
              showCheckout := false; showCalculator := false |}).
  reflexivity.
Defined.

(** Whatever happens after the screen was mounted, the notices on the
    page are exactly those whose 3000 ms timer is still pending, in the
    same order, so every notice goes away and no timer removes a node that
    is not on the page; and the selected category is one of the offered
    options. *)
Theorem notices_always_ok (stored : option (list Product)) (es : list PosEvent) (p : Pos) :
  posRun es (mounted stored) = Some p ->
  NoticesOk (screen p)
  /\ (forall k, k < List.length (timeouts (screen p)) ->
        exists s n, fireTimeout k (screen p) = Some s
                    /\ nth_error (body (screen p)) k = Some n
                    /\ body s = dropNth k (body (screen p)))%nat
  /\ In (selectedCategory p) (categoryOptions p).
Proof.
  intros Hrun.
  destruct (posRun_Kept _ es _ _ (mounted_Kept stored) Hrun) as [Hp [_ [Hnot Hsel]]].
  split; [exact Hnot |]. split.
  - intros k Hk. pose proof Hnot as [Hmap _].
    assert (Hlen : List.length (body (screen p)) = List.length (timeouts (screen p))).
    { rewrite <- (length_map node), Hmap. apply length_map. }
    destruct (nth_error (body (screen p)) k) as [n|] eqn:E.
    + destruct (fireTimeout_at _ k n Hnot E) as [s [Hs [Hb _]]].
      now exists s, n.
    + apply nth_error_None in E. lia.
  - unfold categoryOptions. now rewrite Hp.
Qed.

Lemma notices_always_ok_witness :
  NoticesOk (handleBarcodeScanned "nothing" (emptyScreen [colaProduct])).
Proof.
  apply (notices_always_ok (Some [colaProduct]) [ScannerScan "nothing"]
           {| screen := handleBarcodeScanned "nothing" (emptyScreen [colaProduct]);
              searchTerm := ""; selectedCategory := "all";
              showCheckout := false; showCalculator := false |}).
  reflexivity.
Defined.

(** *** The quantity buttons of a line *)

Lemma one_line_at l1 item l2 :
  OneLinePerProduct (l1 ++ item :: l2)%list ->
  lineFor (id (product item)) item = true
  /\ linesFor (id (product item)) l1 = [] /\ linesFor (id (product item)) l2 = [].
Proof.
  unfold OneLinePerProduct. rewrite map_app. simpl. intros Hnd.
  apply NoDup_remove_2 in Hnd.
  split; [unfold lineFor; apply String.eqb_refl |].
  split; apply linesFor_nil_forall; intros x Hx E; apply Hnd, in_or_app;
    [left | right]; rewrite <- E;
    exact (in_map (fun l => id (product l)) _ _ Hx).
Qed.

Lemma nth_error_middle {A} (l1 : list A) x l2 :
  nth_error (l1 ++ x :: l2)%list (List.length l1) = Some x.
Proof. induction l1 as [|a l1 IH]; simpl; [reflexivity | exact IH]. Qed.

Lemma updateQuantity_at l1 item l2 q :
  OneLinePerProduct (l1 ++ item :: l2)%list ->
  updateQuantity (id (product item)) q (l1 ++ item :: l2)%list
  = if (q <=? 0)%Z then (l1 ++ l2)%list
    else (l1 ++ {| product := product item; quantity := q |} :: l2)%list.
Proof.
  intros Hone. destruct (one_line_at _ _ _ Hone) as [Hl [H1 H2]].
  unfold updateQuantity. destruct (q <=? 0)%Z.
  - now apply removeItem_single.
  - now rewrite (map_single (withQuantity q)).
Qed.

(** On a line of a cart with one line per product: the plus button adds
    1 to that line and nothing else, the minus button after it restores the
    cart; the minus button takes 1 off a quantity of 2 or more and takes
    the line out at quantity 1, as the trash button does at any quantity. *)
Theorem quantity_buttons (p : Pos) (l1 l2 : list CartLine) (item : CartLine) :
  items (screen p) = (l1 ++ item :: l2)%list ->
  OneLinePerProduct (items (screen p)) ->
  (1 <= quantity item)%Z ->
  let k := List.length l1 in
  let lineWith q := {| product := product item; quantity := q |} in
  (exists p1,
     posStep (ClickPlus k) p = Some p1
     /\ items (screen p1) = (l1 ++ lineWith (quantity item + 1)%Z :: l2)%list
     /\ exists p2, posStep (ClickMinus k) p1 = Some p2
                   /\ items (screen p2) = items (screen p))
  /\ (exists p1,
        posStep (ClickMinus k) p = Some p1
        /\ items (screen p1)
           = if (quantity item =? 1)%Z then (l1 ++ l2)%list
             else (l1 ++ lineWith (quantity item - 1)%Z :: l2)%list)
  /\ (exists p1, posStep (ClickTrash k) p = Some p1
                 /\ items (screen p1) = (l1 ++ l2)%list).
Proof.
  intros Hitems Hone Hq k lineWith. rewrite Hitems in Hone.
  assert (Hk : nth_error (items (screen p)) k = Some item)
    by (rewrite Hitems; apply nth_error_middle).
  split; [| split].
  - set (items1 := (l1 ++ lineWith (quantity item + 1)%Z :: l2)%list).
    assert (H1 : updateQuantity (id (product item)) (quantity item + 1) (items (screen p))
                 = items1).
    { rewrite Hitems, updateQuantity_at by exact Hone.
      destruct (Z.leb_spec (quantity item + 1) 0); [lia | reflexivity]. }
    assert (H2 : updateQuantity (id (product item)) (quantity item + 1 - 1) items1
                 = items (screen p)).
    { assert (Hone' : OneLinePerProduct items1).
      { unfold OneLinePerProduct, items1 in *. rewrite map_app in *. exact Hone. }
      unfold items1 in *.
      rewrite (updateQuantity_at l1 (lineWith (quantity item + 1)%Z) l2 _ Hone').
      destruct (Z.leb_spec (quantity item + 1 - 1) 0); [lia |].
      rewrite Hitems. destruct item as [pr q]. simpl. do 3 f_equal. lia. }
    exists (onScreen (setItems (updateQuantity (id (product item)) (quantity item + 1))) p).
    split; [simpl; now rewrite Hk |].
    split; [exact H1 |].
    exists (onScreen (setItems (updateQuantity (id (product item)) (quantity item + 1 - 1)))
              (onScreen (setItems (updateQuantity (id (product item)) (quantity item + 1))) p)).
    split.
    + cbn [posStep onScreen screen setItems items]. rewrite H1.
      unfold items1, k. rewrite nth_error_middle. reflexivity.
    + cbn [onScreen screen setItems items]. rewrite H1. exact H2.
  - eexists. split; [simpl; rewrite Hk; reflexivity |]. simpl.
    rewrite Hitems, updateQuantity_at by exact Hone.
    destruct (Z.eqb_spec (quantity item) 1) as [E | E];
      destruct (Z.leb_spec (quantity item - 1) 0); try lia; reflexivity.
  - eexists. split; [simpl; rewrite Hk; reflexivity |]. simpl.
    rewrite Hitems. destruct (one_line_at _ _ _ Hone) as [Hl [H1 H2]].
    now apply removeItem_single.
Qed.

Lemma quantity_buttons_witness :
  exists p1,
    posStep (ClickMinus 1)
      {| screen := setItems (fun _ => [{| product := chipsProduct; quantity := 4 |};
                                       {| product := colaProduct; quantity := 1 |}])
                     (emptyScreen [colaProduct; chipsProduct]);
         searchTerm := ""; selectedCategory := "all";
         showCheckout := false; showCalculator := false |} = Some p1
    /\ items (screen p1) = [{| product := chipsProduct; quantity := 4 |}].
Proof.
  apply (proj1 (proj2 (quantity_buttons
           {| screen := setItems (fun _ => [{| product := chipsProduct; quantity := 4 |};
                                            {| product := colaProduct; quantity := 1 |}])
                          (emptyScreen [colaProduct; chipsProduct]);
              searchTerm := ""; selectedCategory := "all";
              showCheckout := false; showCalculator := false |}
           [{| product := chipsProduct; quantity := 4 |}] []
           {| product := colaProduct; quantity := 1 |} eq_refl
           ltac:(repeat constructor; simpl; intuition discriminate) ltac:(simpl; lia)))).
Defined.

End PosFacts.

(** ** More on the scanner: manual entry, failures, closing *)
Module ScannerMore.
Import JsString JsStringFacts Catalog Cart Screen Scanner ScannerFacts ScannerView.

(** *** Renders that change nothing *)

Lemma render_inSync w : inSync w = true -> render w = w.
Proof.
  unfold inSync, render. intros H. apply negb_true_iff in H.
  now rewrite H, andb_false_r.
Qed.

Lemma trimStart_blank s :
  forallb isWhiteSpace (list_ascii_of_string s) = true -> trimStart s = "".
Proof.
  induction s as [|c s IH]; simpl; [reflexivity |].
  intros H. apply andb_true_iff in H. destruct H as [Hc Hs]. now rewrite Hc, IH.
Qed.

Lemma trimStart_white s :
  forallb isWhiteSpace (list_ascii_of_string (trimStart s)) = true ->
  forallb isWhiteSpace (list_ascii_of_string s) = true.
Proof.
  induction s as [|c s IH]; simpl; [trivial |].
  destruct (isWhiteSpace c) eqn:E; simpl; [exact IH |].
  rewrite E. discriminate.
Qed.

Lemma trimEnd_empty s :
  trimEnd s = "" -> forallb isWhiteSpace (list_ascii_of_string s) = true.
Proof.
  induction s as [|c s IH]; simpl; [reflexivity |].
  destruct (trimEnd s) as [|d r]; [| discriminate].
  destruct (isWhiteSpace c); [| discriminate]. intros _. now apply IH.
Qed.

(** What [trim] leaves is empty exactly for the entries made of white
    space only. *)
Lemma trim_empty_iff s :
  trim s = "" <-> forallb isWhiteSpace (list_ascii_of_string s) = true.
Proof.
  unfold trim. split.
  - intros H. apply trimStart_white. now apply trimEnd_empty.
  - intros H. now rewrite trimStart_blank.
Qed.

(** *** Manual entry *)

(** An entry that [trim] empties, that is an entry made of white space
    only (tab, line feed, vertical tab, form feed, carriage return, space,
    no-break space) or with no character at all, is not a scan: the submit
    button is disabled, and a submission all the same changes nothing: the
    screen's handler is not called, the scanner stays open with the typed
    text. *)
Theorem blank_entry_ignored (w : World) (text : string) :
  isOpen w = true -> scannerMode (st w) = input -> inSync w = true ->
  trim text = "" ->
  run [TypeBarcode text; SubmitManual] w = Some (setManualBarcode text w)
  /\ submitDisabled (setManualBarcode text w) = true
  /\ host (setManualBarcode text w) = host w
  /\ forallb isWhiteSpace (list_ascii_of_string text) = true.
Proof.
  intros Hopen Hmode Hsync Htrim.
  assert (Hsync' : inSync (setManualBarcode text w) = true) by exact Hsync.
  split; [| split; [| split; [reflexivity | now apply trim_empty_iff]]].
  - unfold run, step, handle. rewrite Hopen, Hmode. simpl andb. cbv iota.
    rewrite (render_inSync _ Hsync').
    change (isOpen (setManualBarcode text w)) with (isOpen w).
    change (scannerMode (st (setManualBarcode text w))) with (scannerMode (st w)).
    rewrite Hopen, Hmode. simpl andb. cbv iota.
    unfold handleManualSubmit. simpl manualBarcode. rewrite Htrim. simpl truthy. cbv iota.
    now rewrite (render_inSync _ Hsync').
  - unfold submitDisabled. simpl manualBarcode. now rewrite Htrim.
Qed.

Lemma blank_entry_ignored_witness :
  run [TypeBarcode (" " ++ noBreakSpace); SubmitManual] manualScanner
  = Some (setManualBarcode (" " ++ noBreakSpace) manualScanner).
Proof.
  apply (blank_entry_ignored manualScanner (" " ++ noBreakSpace)); reflexivity.
Defined.

(** A manual entry that [trim] does not empty is a scan of the trimmed
    text: on submit the screen's handler receives the entry without the
    white space around it (no-break spaces included), so a padded barcode
    finds its product; the scanner closes, the entry field is emptied and
    the scanner stays in manual mode. *)
Theorem manual_entry_scans (w : World) (text : string) :
  isOpen w = true -> scannerMode (st w) = input -> truthy (trim text) = true ->
  exists w',
    run [TypeBarcode text; SubmitManual] w = Some w'
    /\ host w' = setShowBarcodeScanner false (handleBarcodeScanned (trim text) (host w))
    /\ isOpen w' = false
    /\ manualBarcode (st w') = ""
    /\ scannerMode (st w') = input
    /\ (forall p, findByBarcode (products (host w)) (trim text) = Some p ->
          items (host w') = addItem p (items (host w)))
    /\ (findByBarcode (products (host w)) (trim text) = None ->
          items (host w') = items (host w)).
Proof.
  intros Hopen Hmode Htext.
  set (w2 := setManualBarcode text w).
  assert (Hmode2 : scannerMode (st w2) = input) by exact Hmode.
  destruct (render_input w2 Hmode2) as [Hhost2 [Hmode2' [Hman2 _]]].
  set (w3 := handleManualSubmit (render w2)).
  assert (Hw3 : w3 = setManualBarcode "" (handleScanSuccess (trim text) (render w2))).
  { unfold w3, handleManualSubmit. rewrite Hman2. simpl manualBarcode. now rewrite Htext. }
  assert (Hmode3 : scannerMode (st w3) = input) by (rewrite Hw3; exact Hmode2').
  destruct (render_input w3 Hmode3) as [Hhost3 [Hmode3' [Hman3 _]]].
  assert (Hhost : host (render w3)
                  = setShowBarcodeScanner false (handleBarcodeScanned (trim text) (host w))).
  { rewrite Hhost3, Hw3. simpl. now rewrite Hhost2. }
  exists (render w3). split.
  { unfold run, step, handle. rewrite Hopen, Hmode. simpl andb. cbv iota.
    fold w2. unfold isOpen. rewrite Hhost2, Hmode2'.
    change (showBarcodeScanner (host w2)) with (isOpen w). rewrite Hopen. reflexivity. }
  split; [exact Hhost |].
  split; [unfold isOpen; now rewrite Hhost |].
  split; [rewrite Hman3, Hw3; reflexivity |].
  split; [exact Hmode3' |].
  rewrite Hhost. unfold handleBarcodeScanned. split.
  - intros p Hp. now rewrite Hp.
  - intros Hp. now rewrite Hp.
Qed.

Lemma manual_entry_scans_witness :
  exists w',
    run [TypeBarcode (noBreakSpace ++ " 111 "); SubmitManual] manualScanner = Some w'
    /\ items (host w') = [{| product := colaProduct; quantity := 1 |}].
Proof.
  destruct (manual_entry_scans manualScanner (noBreakSpace ++ " 111 ") eq_refl eq_refl eq_refl)
    as [w' [Hrun [_ [_ [_ [_ [Hhit _]]]]]]].
  exists w'. split; [exact Hrun |]. exact (Hhit colaProduct eq_refl).
Defined.

(** *** Failures of the camera *)


Lemma catch_goes_manual (w0 : World) :
  let w' := render (initializeScanner_catch w0) in
  scannerMode (st w') = input
  /\ error (st w') = initFailedMessage
  /\ (isOpen w0 = true ->
      shownError w' = Some initFailedMessage /\ manualFormShown w' = true)
  /\ In "Scanner initialization error:" (console w')
  /\ map startCalled (instances w') = map startCalled (instances w0)
  /\ host w' = host w0.
Proof.
  set (w1 := initializeScanner_catch w0). cbv zeta.
  assert (Hmode1 : scannerMode (st w1) = input) by reflexivity.
  destruct (render_input w1 Hmode1) as [Hhost [Hmode [_ [Herr [Hstart _]]]]].
  split; [exact Hmode |]. split; [now rewrite Herr |].
  split.
  { intros Ho. unfold shownError, manualFormShown, isOpen.
    rewrite Hhost, Herr, Hmode. simpl host. unfold isOpen in Ho. now rewrite Ho. }
  split.
  { assert (Hc : In "Scanner initialization error:" (console w1)).
    { simpl. apply in_or_app. right. now left. }
    clear - Hc. unfold render.
    destruct (mounted w1 && depsChanged w1); [| exact Hc].
    unfold runEffect, initializeScanner, cleanup, cleanup_tail.
    destruct (isOpen w1 && Mode_eqb (scannerMode (st w1)) camera),
      (html5QrCodeRef w1), (seenScanning (effect w1)), (scannerRef w1); exact Hc. }
  split; [exact Hstart | exact Hhost].
Qed.

(** When the enumeration of the cameras or the start of the capture
    fails, the scanner logs the failure and falls back to manual mode with
    the "failed to initialize" message, which an open scanner displays with
    the manual form; no capture is started on the way and the screen is
    left alone. *)
Theorem failure_goes_manual (w : World) (e : Event) :
  (e = CamerasRejected /\ existsb isAwaitGetCameras (tasks w) = true)
  \/ (exists h, e = StartRejected h /\ existsb (Task_eqb (AwaitStart h)) (tasks w) = true) ->
  exists w',
    step e w = Some w'
    /\ scannerMode (st w') = input
    /\ error (st w') = initFailedMessage
    /\ (isOpen w = true ->
        shownError w' = Some initFailedMessage /\ manualFormShown w' = true)
    /\ In "Scanner initialization error:" (console w')
    /\ map startCalled (instances w') = map startCalled (instances w)
    /\ host w' = host w.
Proof.
  intros [[-> Hp] | [h [-> Hp]]];
    destruct (takeTask_some _ _ Hp) as [t [rest [Htake _]]];
    unfold step, handle; rewrite Htake;
    exists (render (initializeScanner_catch (setTasks rest w)));
    (split; [reflexivity |]);
    exact (catch_goes_manual (setTasks rest w)).
Qed.

Lemma failure_goes_manual_witness :
  exists w', step CamerasRejected openedScanner = Some w'
             /\ shownError w' = Some initFailedMessage.
Proof.
  destruct (failure_goes_manual openedScanner CamerasRejected (or_introl (conj eq_refl eq_refl)))
    as [w' [Hstep [_ [_ [Hshown _]]]]].
  exists w'. split; [exact Hstep | exact (proj1 (Hshown eq_refl))].
Defined.

(** A decode error of a running capture changes nothing but the console,
    and not even the console when the message contains "No QR code found":
    the scanner stays as it is and the capture keeps running. *)
Theorem decode_error_only_logs (w : World) (h : nat) (errorMessage : string) :
  isScanningInstance h w = true -> inSync w = true ->
  exists w',
    step (DecodeError h errorMessage) w = Some w'
    /\ host w' = host w /\ st w' = st w /\ instances w' = instances w
    /\ tasks w' = tasks w /\ html5QrCodeRef w' = html5QrCodeRef w
    /\ isScanningInstance h w' = true
    /\ ((exists pre post, errorMessage = pre ++ "No QR code found" ++ post) -> w' = w)
    /\ (~ (exists pre post, errorMessage = pre ++ "No QR code found" ++ post) ->
        console w' = (console w ++ [("Scan error: " ++ errorMessage)%string])%list).
Proof.
  intros Hscan Hsync. unfold step, handle. rewrite Hscan. unfold onDecodeError.
  destruct (includes errorMessage "No QR code found") eqn:E; simpl negb; cbv iota.
  - exists w. rewrite (render_inSync _ Hsync). repeat split; try assumption.
    intros Hno. exfalso. apply Hno. now apply includes_iff.
  - assert (Hsync' : inSync (logLine ("Scan error: " ++ errorMessage) w) = true)
      by exact Hsync.
    rewrite (render_inSync _ Hsync'). eexists. split; [reflexivity |].
    repeat split; try assumption.
    intros Hyes. apply includes_iff in Hyes. congruence.
Qed.

Lemma decode_error_only_logs_witness :
  exists w',
    step (DecodeError 0 "NotFoundException: No QR code found") scanningScanner = Some w'
    /\ st w' = st scanningScanner.
Proof.
  destruct (decode_error_only_logs scanningScanner 0 "NotFoundException: No QR code found"
              eq_refl eq_refl)
    as [w' [Hstep [_ [Hst _]]]].
  exists w'. split; [exact Hstep | exact Hst].
Defined.

(** *** Releasing *)

(** A release that does not have to wait for [stop()] is idempotent:
    running [cleanup] again afterwards, whatever [isScanning] the second
    caller sees, changes nothing; and it leaves no session referenced. *)
Theorem cleanup_idempotent (seen seen' : bool) (w : World) :
  html5QrCodeRef w = None \/ seen = false ->
  cleanup seen' (cleanup seen w) = cleanup seen w
  /\ noSession (cleanup seen w).
Proof.
  intros H. unfold cleanup at 2 3 4.
  assert (Htail : cleanup seen' (cleanup_tail w) = cleanup_tail w /\ noSession (cleanup_tail w)).
  { split; [| repeat split]. unfold cleanup_tail. now destruct (scannerRef w). }
  destruct (html5QrCodeRef w) as [h|]; [| exact Htail].
  destruct H as [H | ->]; [discriminate | exact Htail].
Qed.

Lemma cleanup_idempotent_witness :
  cleanup true (cleanup false (scanningScanner))
  = cleanup false (scanningScanner).
Proof.
  apply (cleanup_idempotent false true (scanningScanner)).
  now right.
Defined.

(** *** Closing while the capture runs *)

Lemma nth_error_updateNth {A} (f : A -> A) k h (l : list A) :
  nth_error (updateNth k f l) h
  = if Nat.eqb h k then option_map f (nth_error l h) else nth_error l h.
Proof.
  revert k h. induction l as [|x l IH]; intros [|k] [|h]; simpl; try reflexivity;
    try (now destruct (Nat.eqb h k)).
  apply IH.
Qed.

Lemma invoke_stoppedAt h h' c w :
  stoppedAt h w = true -> stoppedAt h (invoke h' c w) = true.
Proof.
  unfold stoppedAt, invoke. simpl. rewrite nth_error_updateNth.
  destruct (nth_error (instances w) h) as [i|]; [| discriminate].
  destruct (Nat.eqb h h'); [| trivial]. simpl.
  intros H. apply andb_true_iff in H. destruct H as [Hs Hn].
  unfold stopCalled in *. simpl. rewrite existsb_snoc, Hs. simpl.
  apply negb_true_iff in Hn. rewrite Hn. now destruct c.
Qed.

Lemma invoke_stop_stoppedAt h w :
  (h < List.length (instances w))%nat -> stoppedAt h (invoke h CallStop w) = true.
Proof.
  intros Hlt. unfold stoppedAt, invoke. simpl. rewrite nth_error_updateNth, Nat.eqb_refl.
  destruct (nth_error (instances w) h) as [i|] eqn:E.
  - simpl. unfold stopCalled. simpl. rewrite existsb_snoc. simpl. now rewrite orb_true_r.
  - apply nth_error_None in E. lia.
Qed.

Lemma cleanup_stoppedAt h seen w :
  stoppedAt h w = true -> stoppedAt h (cleanup seen w) = true.
Proof.
  intros H. unfold cleanup, cleanup_tail.
  destruct (html5QrCodeRef w) as [r|], seen, (scannerRef w) as [r'|];
    try exact H; try (now apply (invoke_stoppedAt h _ _ w)).
Qed.

Lemma render_stoppedAt h w : stoppedAt h w = true -> stoppedAt h (render w) = true.
Proof.
  intros H. unfold render. destruct (mounted w && depsChanged w); [| exact H].
  unfold runEffect, initializeScanner.
  pose proof (cleanup_stoppedAt h (seenScanning (effect w)) w H) as Hc.
  destruct (isOpen w && Mode_eqb (scannerMode (st w)) camera); exact Hc.
Qed.

Lemma render_closed w :
  isOpen w = false ->
  host (render w) = host w
  /\ manualBarcode (st (render w)) = manualBarcode (st w)
  /\ error (st (render w)) = error (st w)
  /\ forall t, In t (tasks w) -> In t (tasks (render w)).
Proof.
  intros Hclosed. unfold render.
  destruct (mounted w && depsChanged w); [| tauto].
  unfold runEffect. rewrite Hclosed. simpl.
  destruct (cleanup_frame (seenScanning (effect w)) w) as [Hh [_ [Hb [He _]]]].
  rewrite Hh, Hb, He. repeat split.
  intros t Ht. destruct (cleanup_tasks (seenScanning (effect w)) w) as [E | [h E]];
    rewrite E; [exact Ht | apply in_or_app; now left].
Qed.

(** The close button, pressed while the scanner says it is scanning, asks
    the referenced capture object to stop before the scanner closes: the
    decode loop of that object is off, the stop is awaited, the typed text
    and the error are cleared and the scanner is closed. *)
Theorem close_stops_running_capture (w : World) (h : nat) :
  isOpen w = true -> html5QrCodeRef w = Some h -> isScanning (st w) = true ->
  (h < List.length (instances w))%nat ->
  exists w',
    step ClickClose w = Some w'
    /\ isOpen w' = false
    /\ stoppedAt h w' = true
    /\ In (AwaitStop h) (tasks w')
    /\ manualBarcode (st w') = "" /\ error (st w') = "".
Proof.
  intros Hopen Href Hscan Hlt. unfold step, handle. rewrite Hopen.
  set (w1 := handleClose w).
  assert (Hw1 : w1 = onClose (setError "" (setManualBarcode ""
                       (suspend (AwaitStop h) (invoke h CallStop w))))).
  { unfold w1, handleClose, cleanup. now rewrite Href, Hscan. }
  assert (Hclosed : isOpen w1 = false) by reflexivity.
  destruct (render_closed w1 Hclosed) as [Hhost [Hman [Herr Htasks]]].
  exists (render w1). split; [reflexivity |].
  split; [unfold isOpen; now rewrite Hhost |].
  split.
  { apply render_stoppedAt. rewrite Hw1.
    exact (invoke_stop_stoppedAt h w Hlt). }
  split.
  { apply Htasks. rewrite Hw1. simpl. apply in_or_app. right. now left. }
  rewrite Hman, Herr, Hw1. split; reflexivity.
Qed.

Lemma close_stops_running_capture_witness :
  exists w', step ClickClose scanningScanner = Some w' /\ stoppedAt 0 w' = true.
Proof.
  destruct (close_stops_running_capture scanningScanner 0 eq_refl eq_refl eq_refl
              ltac:(simpl; lia))
    as [w' [Hstep [_ [Hstop _]]]].
  exists w'. split; [exact Hstep | exact Hstop].
Defined.

(** *** Manual mode leaves the camera alone *)












(** *** Starting the camera *)

Lemma updateNth_last {A} (f : A -> A) (l : list A) x :
  updateNth (List.length l) f (l ++ [x])%list = (l ++ [f x])%list.
Proof. induction l as [|a l IH]; simpl; [reflexivity | now rewrite IH]. Qed.

Ltac crunch :=
  cbv [run step handle render onHost setShowBarcodeScanner mounted host depsChanged effect
       depIsOpen depMode depCamera isOpen showBarcodeScanner st scannerMode selectedCamera
       Mode_eqb Bool.eqb andb negb cleanup html5QrCodeRef seenScanning cleanup_tail
       scannerRef cleanup_finish setRefs setIsScanning onState runEffect initializeScanner
       suspend setError setTasks tasks setEffect isScanning takeTask isAwaitGetCameras
       initializeScanner_cameras setCameras newHtml5Qrcode instances setInstances invoke
       manualBarcode error cameras console products items body timeouts nextNode
       initializeScanner_started setScanning Task_eqb calls scanning];
  cbn [app].

(** From a closed scanner in camera mode with no session and nothing
    pending: the Scan button, an enumeration that finds cameras and the
    start of the capture leave the scanner open and scanning, without
    error, on one new capture object that the ref points to; the capture
    was started on the selected camera when one is selected and on the
    first camera found otherwise; the placeholder is gone, the camera menu
    is drawn when there are several cameras, and the screen's cart and
    notices are untouched. *)
Theorem camera_start_up (w : World) (d : CameraDevice) (ds : list CameraDevice) :
  mounted w = true -> isOpen w = false -> scannerMode (st w) = camera ->
  inSync w = true -> tasks w = [] -> noSession w ->
  let h := List.length (instances w) in
  let cameraId := if truthy (selectedCamera (st w)) then selectedCamera (st w)
                  else deviceId d in
  exists w',
    run [ClickScan; CamerasResolved (d :: ds); StartResolved h] w = Some w'
    /\ isOpen w' = true
    /\ isScanning (st w') = true
    /\ error (st w') = ""
    /\ cameras (st w') = d :: ds
    /\ html5QrCodeRef w' = Some h
    /\ instances w'
       = (instances w ++ [{| calls := [CallStart cameraId]; scanning := true |}])%list
    /\ tasks w' = []
    /\ initializingShown w' = false
    /\ cameraSelectShown w' = negb (Nat.eqb (List.length ds) 0)
    /\ items (host w') = items (host w) /\ body (host w') = body (host w).
Proof.
  intros Hm Hclosed Hmode Hsync Ht [Href [Hsref Hscan]] h cameraId.
  destruct w as [hst s sr hr m eff insts tks con].
  destruct s as [mode text scan err cams sel]. destruct eff as [dopen dmode dcam dseen].
  destruct hst as [prods its show bd tos nn].
  unfold inSync, depsChanged, isOpen in *.
  cbn in Hm, Hclosed, Hmode, Hsync, Ht, Href, Hsref, Hscan, h, cameraId. subst.
  rewrite negb_involutive in Hsync.
  apply andb_true_iff in Hsync. destruct Hsync as [Hsync Hc].
  apply andb_true_iff in Hsync. destruct Hsync as [Ho Hd].
  destruct dopen; [discriminate |]. destruct dmode; [| discriminate].
  apply String.eqb_eq in Hc. subst dcam.
  eexists. split.
  - crunch. rewrite String.eqb_refl. crunch.
    rewrite !updateNth_last. subst h. rewrite Nat.eqb_refl. crunch.
    rewrite String.eqb_refl. crunch. rewrite updateNth_last. crunch. reflexivity.
  - unfold initializingShown, cameraSelectShown, isOpen. cbn.
    repeat split. now destruct ds.
Qed.

Lemma camera_start_up_witness :
  exists w',
    run [ClickScan; CamerasResolved [frontCamera; backCamera]; StartResolved 0] closedScanner
    = Some w'
    /\ instances w' = [{| calls := [CallStart "cam0"]; scanning := true |}].
Proof.
  destruct (camera_start_up closedScanner frontCamera [backCamera]
              eq_refl eq_refl eq_refl eq_refl eq_refl
              (conj eq_refl (conj eq_refl eq_refl)))
    as [w' [Hrun [_ [_ [_ [_ [_ [Hi _]]]]]]]].
  exists w'. split; [exact Hrun | exact Hi].
Defined.

End ScannerMore.

(** ** The layout *)
Module LayoutFacts.
Import JsString Layout.

Lemma isAdmin_iff user : isAdmin user = true <-> exists u, user = Some u /\ role u = "admin".
Proof.
  unfold isAdmin. destruct user as [u|].
  - rewrite String.eqb_eq. split.
    + intros H. now exists u.
    + intros [u' [[= <-] H]]. exact H.
  - split; [discriminate | intros [u [H _]]; discriminate].
Qed.

(** The menu depends on the role alone: the seven admin views for a user
    whose role is exactly "admin", and for anyone else (another role, a
    role written otherwise, no user at all) only POS and Time Card, so
    that no click in the side bar of such a user opens another view. *)
Theorem menu_by_role (user : option User) :
  ((exists u, user = Some u /\ role u = "admin") ->
   map itemId (menuItems user)
   = ["pos"; "products"; "employees"; "vouchers"; "reports"; "attendance"; "settings"])
  /\ (~ (exists u, user = Some u /\ role u = "admin") ->
      map itemId (menuItems user) = ["pos"; "timecard"]
      /\ forall settings currentView k view,
           clickNav settings user currentView k = Some view ->
           view = "pos" \/ view = "timecard").
Proof.
  split.
  - intros H. apply isAdmin_iff in H. unfold menuItems. now rewrite H.
  - intros H. assert (Hno : isAdmin user = false).
    { destruct (isAdmin user) eqn:E; [| reflexivity]. apply isAdmin_iff in E. contradiction. }
    unfold clickNav, sidebar, menuItems. rewrite Hno. split; [reflexivity |].
    intros settings currentView k view Hk.
    destruct k as [|[|k]]; simpl in Hk.
    + injection Hk as <-. now left.
    + injection Hk as <-. now right.
    + destruct k; discriminate.
Qed.

Lemma menu_by_role_witness :
  map itemId (menuItems (Some {| userName := "Ana"; role := "Admin" |})) = ["pos"; "timecard"].
Proof.
  apply (proj2 (menu_by_role (Some {| userName := "Ana"; role := "Admin" |}))).
  intros [u [[= <-] H]]. discriminate H.
Defined.

Lemma count_current (currentView : string) (ids : list string) :
  NoDup ids ->
  List.length (filter (String.eqb currentView) ids) = if in_dec string_dec currentView ids then 1%nat else 0%nat.
Proof.
  induction ids as [|x ids IH]; intros Hnd; simpl; [reflexivity |].
  inversion Hnd; subst. specialize (IH H2).
  destruct (String.eqb_spec currentView x) as [-> | Hne].
  - simpl. rewrite IH. destruct (string_dec x x); [| congruence].
    destruct (in_dec string_dec x ids); [contradiction | reflexivity].
  - rewrite IH. destruct (string_dec x currentView); [congruence |].
    now destruct (in_dec string_dec currentView ids).
Qed.

Lemma menuItems_NoDup user : NoDup (map itemId (menuItems user)).
Proof.
  unfold menuItems. destruct (isAdmin user); simpl;
    repeat (constructor; [simpl; intuition discriminate |]); constructor.
Qed.

(** The buttons of the side bar have distinct keys, whoever the user is,
    and at most one of them is drawn as current: exactly one when the
    current view is in the user's menu, none otherwise; the button drawn
    as current is the one that opens the current view, and only it has the
    brand colour as background when that colour is not "transparent". *)
Theorem one_current_button (settings : Settings) (user : option User) (currentView : string) :
  NoDup (map key (sidebar settings user currentView))
  /\ List.length (filter current (sidebar settings user currentView))
     = (if in_dec string_dec currentView (map itemId (menuItems user)) then 1 else 0)%nat
  /\ (forall b, In b (sidebar settings user currentView) ->
        (current b = true <-> opens b = currentView)
        /\ backgroundColor b = if current b then primary_color settings else "transparent").
Proof.
  unfold sidebar. split; [| split].
  - rewrite map_map. simpl. apply menuItems_NoDup.
  - rewrite <- (count_current currentView _ (menuItems_NoDup user)).
    induction (menuItems user) as [|x l IH]; simpl; [reflexivity |].
    destruct (String.eqb currentView (itemId x)); simpl; now rewrite IH.
  - intros b Hb. apply in_map_iff in Hb. destruct Hb as [item [<- _]]. simpl.
    split; [| reflexivity].
    rewrite String.eqb_eq. split; congruence.
Qed.

End LayoutFacts.
